(** * imagecodecs: the lazy attribute resolver, the stub factory, the
      compatibility aliases and the multi-codec trial loop of [imread]

    A shallow embedding of [imagecodecs/imagecodecs.py] (version 2022.9.26).

    Python strings are modelled as [string] (byte strings; the case
    conversions and tests follow the ASCII rules, which is all the
    registry names need).  Python dictionaries whose iteration order is
    observable ([_API], [_ATTRIBUTES], [_COMPATIBILITY], the extension
    table) are association lists in insertion order; the package
    namespace, which is only ever looked up and assigned by key, is a
    [gmap].  Exceptions are values of the type [exn]; code that can raise
    returns a [result]. *)

From Stdlib Require Import Ascii String List Bool Arith Lia.
From stdpp Require Import base option list strings gmap.

Local Open Scope list_scope.

(** ** Python string operations *)

Module PyStr.

(** [s.endswith(suffix)]: some tail of [s] is [suffix]. *)
Fixpoint endswith (s suffix : string) : bool :=
  if String.eqb s suffix then true
  else match s with
       | EmptyString => false
       | String _ s' => endswith s' suffix
       end.

(** [s[:-n]] for a positive literal [n]: all but the last [n]
    characters (the empty string when [s] is shorter). *)
Definition slice_end (s : string) (n : nat) : string :=
  String.substring 0 (String.length s - n) s.

Definition is_upper (c : ascii) : bool :=
  (65 <=? nat_of_ascii c) && (nat_of_ascii c <=? 90).

Definition is_lower (c : ascii) : bool :=
  (97 <=? nat_of_ascii c) && (nat_of_ascii c <=? 122).

Definition to_upper (c : ascii) : ascii :=
  if is_lower c then ascii_of_nat (nat_of_ascii c - 32) else c.

Definition to_lower (c : ascii) : ascii :=
  if is_upper c then ascii_of_nat (nat_of_ascii c + 32) else c.

Fixpoint map (f : ascii -> ascii) (s : string) : string :=
  match s with
  | EmptyString => EmptyString
  | String c s' => String (f c) (map f s')
  end.

Fixpoint existsb (p : ascii -> bool) (s : string) : bool :=
  match s with
  | EmptyString => false
  | String c s' => p c || existsb p s'
  end.

(** [s.upper()], [s.lower()], [s.capitalize()] *)
Definition upper (s : string) : string := map to_upper s.
Definition lower (s : string) : string := map to_lower s.
Definition capitalize (s : string) : string :=
  match s with
  | EmptyString => EmptyString
  | String c s' => String (to_upper c) (lower s')
  end.

(** [s.isupper()]: at least one cased character and no lower-case one;
    [s.islower()] likewise. *)
Definition isupper (s : string) : bool :=
  existsb is_upper s && negb (existsb is_lower s).
Definition islower (s : string) : bool :=
  existsb is_lower s && negb (existsb is_upper s).

(** [sep.join(l)] *)
Fixpoint join (sep : string) (l : list string) : string :=
  match l with
  | [] => EmptyString
  | [x] => x
  | x :: l' => x +:+ sep +:+ join sep l'
  end.

Definition hex_digit (n : nat) : ascii :=
  if n <? 10 then ascii_of_nat (48 + n) else ascii_of_nat (87 + n).

(** One character of [repr(s)] with the quote character [q]. *)
Definition repr_char (q c : ascii) : string :=
  let n := nat_of_ascii c in
  if Ascii.eqb c q || Ascii.eqb c "\"%char
  then String "\"%char (String c EmptyString)
  else if n =? 9 then "\t"
  else if n =? 10 then "\n"
  else if n =? 13 then "\r"
  else if (n <? 32) || (n =? 127)
  then String "\"%char (String "x"%char
         (String (hex_digit (n / 16)) (String (hex_digit (n mod 16)) EmptyString)))
  else String c EmptyString.

Fixpoint concat_map (f : ascii -> string) (s : string) : string :=
  match s with
  | EmptyString => EmptyString
  | String c s' => f c +:+ concat_map f s'
  end.

Definition dquote : ascii := ascii_of_nat 34.

(** The separator of ['\n'.join(...)]. *)
Definition newline : string := String (ascii_of_nat 10) EmptyString.

(** [repr(s)], the [{s!r}] of an f-string: single quotes unless the
    string holds a single quote and no double quote. *)
Definition repr (s : string) : string :=
  let q := if existsb (Ascii.eqb "'"%char) s
              && negb (existsb (Ascii.eqb dquote) s)
           then dquote else "'"%char in
  String q (concat_map (repr_char q) s +:+ String q EmptyString).

End PyStr.

(** ** Python dictionaries in insertion order *)

Module Dict.
Section Dict.
Context {K V : Type} `{EqDecision K}.

(** [k in d] / [d.get(k)] *)
Fixpoint get (d : list (K * V)) (k : K) : option V :=
  match d with
  | [] => None
  | (k', v) :: d' => if decide (k' = k) then Some v else get d' k
  end.

(** [d[k] = v]: an existing key keeps its place, a new one is appended. *)
Fixpoint set (d : list (K * V)) (k : K) (v : V) : list (K * V) :=
  match d with
  | [] => [(k, v)]
  | (k', v') :: d' =>
      if decide (k' = k) then (k', v) :: d' else (k', v') :: set d' k v
  end.

(** [d.update(pairs)] *)
Definition update (d : list (K * V)) (pairs : list (K * V)) : list (K * V) :=
  fold_left (fun d kv => set d (fst kv) (snd kv)) pairs d.

(** [list(d)] *)
Definition keys (d : list (K * V)) : list K := List.map fst d.

Definition mem (d : list (K * V)) (k : K) : bool :=
  match get d k with Some _ => true | None => false end.
End Dict.
End Dict.

(** ** Exceptions and results *)

Inductive exn : Type :=
| AttributeError (msg : string)
| ImportError (msg : string)
| DelayedImportError (name : string)     (* class DelayedImportError(ImportError) *)
| ValueError (msg : string)
| TypeError (msg : string)
| KeyError (msg : string)
| RecursionError (msg : string)
| OtherError (cls msg : string).         (* any other subclass of Exception *)

(** [DelayedImportError.__init__]: the message handed to [ImportError]. *)
Definition DelayedImportError_msg (name : string) : string :=
  "could not import name " +:+ PyStr.repr name +:+ " from 'imagecodecs'".

(** [str(exc)] *)
Definition str_exn (e : exn) : string :=
  match e with
  | AttributeError msg | ImportError msg | ValueError msg | TypeError msg
  | KeyError msg | RecursionError msg | OtherError _ msg => msg
  | DelayedImportError name => DelayedImportError_msg name
  end.

(** What [except ImportError], [except AttributeError] and
    [except DelayedImportError] catch. *)
Definition is_ImportError (e : exn) : bool :=
  match e with ImportError _ | DelayedImportError _ => true | _ => false end.
Definition is_AttributeError (e : exn) : bool :=
  match e with AttributeError _ => true | _ => false end.
Definition is_DelayedImportError (e : exn) : bool :=
  match e with DelayedImportError _ => true | _ => false end.

Inductive result (A : Type) : Type :=
| Return (a : A)
| Raise (e : exn).
Arguments Return {A} a.
Arguments Raise {A} e.

Definition bind {A B : Type} (r : result A) (k : A -> result B) : result B :=
  match r with
  | Return a => k a
  | Raise e => Raise e
  end.

(** ** The registry: [_API], [_COMPATIBILITY], [_ATTRIBUTES], [_CODECS] *)

(** An entry of a module's attribute list: a name, or a tuple of codec
    names. *)
Inductive api_entry : Type :=
| Attr (name : string)
| Group (codecs : list string).

Global Instance api_entry_eq_dec : EqDecision api_entry.
Proof. solve_decision. Defined.

Module Registry.

(** The literal [_API] of the source; the key [None] is the package
    itself. *)
Definition _API_literal : list (option string * list api_entry) :=
  [ (None, [Attr "version"; Attr "imread"; Attr "imwrite";
            Attr "imagefileext"; Attr "DelayedImportError";
            Group ["none"; "numpy"; "jpeg"]]);
    (Some "imcd", [Attr "imcd_version"; Attr "numpy_abi_version";
                   Attr "cython_version";
                   Group ["bitorder"; "byteshuffle"; "delta"; "float24";
                          "floatpred"; "lzw"; "packbits"; "packints";
                          "xor"]]);
    (Some "aec", []); (Some "apng", []); (Some "avif", []);
    (Some "bitshuffle", []); (Some "blosc", []); (Some "blosc2", []);
    (Some "brotli", []); (Some "brunsli", []); (Some "bz2", []);
    (Some "cms", [Attr "cms_transform"; Attr "cms_profile"]);
    (Some "deflate", [Attr "deflate_crc32"; Attr "deflate_adler32";
                      Group ["deflate"; "gzip"]]);
    (Some "gif", []); (Some "heif", []);
    (Some "jetraw", [Attr "jetraw_init"]);
    (Some "jpeg2k", []); (Some "jpeg8", []); (Some "jpeg12", []);
    (Some "jpegls", []); (Some "jpegsof3", []); (Some "jpegxl", []);
    (Some "jpegxr", []); (Some "lerc", []); (Some "ljpeg", []);
    (Some "lz4", []); (Some "lz4f", []); (Some "lzf", []);
    (Some "lzma", []); (Some "mozjpeg", []); (Some "pglz", []);
    (Some "qoi", []); (Some "png", []); (Some "rgbe", []);
    (Some "rcomp", []); (Some "snappy", []); (Some "spng", []);
    (Some "tiff", []); (Some "webp", []); (Some "zfp", []);
    (Some "zlib", [Attr "zlib_crc32"; Attr "zlib_adler32"]);
    (Some "zlibng", [Attr "zlibng_crc32"; Attr "zlibng_adler32"]);
    (Some "zopfli", []); (Some "zstd", []) ].

Definition _COMPATIBILITY : list (string * string) :=
  [ ("JPEG", "JPEG8");
    ("jpeg_check", "jpeg8_check");
    ("jpeg_version", "jpeg8_version");
    ("zopfli_check", "zlib_check");
    ("zopfli_decode", "zlib_decode");
    ("j2k_encode", "jpeg2k_encode");
    ("j2k_decode", "jpeg2k_decode");
    ("jxr_encode", "jpegxr_encode");
    ("jxr_decode", "jpegxr_decode") ].

(** The three global dictionaries [_register_codecs] works on. *)
Record registry : Type := {
  api : list (option string * list api_entry);
  attributes : list (string * option string);
  codecs : list (string * option string)
}.

Definition initial : registry :=
  {| api := _API_literal; attributes := []; codecs := [] |}.

(** The names among a module's entries.  Every list of the literal
    holds at most one tuple, which [_register_codecs] removes before the
    names are read, so nothing is dropped here (lemma
    [registered_api_names_only]). *)
Definition names (l : list api_entry) : list string :=
  omap (fun e => match e with Attr n => Some n | Group _ => None end) l.

(** The default attributes of a codec. *)
Definition codec_attributes (codec : string) : list string :=
  [ codec +:+ "_encode"; codec +:+ "_decode"; codec +:+ "_check";
    codec +:+ "_version"; PyStr.capitalize codec +:+ "Error";
    PyStr.upper codec ].

(** [_add_codec(module, codec)], with the default [attributes=None];
    [codec=None] stands for the module's own name, and raises in
    [codec.capitalize()] when the module is [None] too. *)
Definition _add_codec (module codec : option string) (r : registry)
  : result registry :=
  match (match codec with Some c => Some c | None => module end) with
  | None =>
      Raise (AttributeError
               "'NoneType' object has no attribute 'capitalize'")
  | Some codec =>
      let new := List.map Attr (codec_attributes codec) in
      let api' :=
        match Dict.get (api r) module with
        | Some l => Dict.set (api r) module (l ++ new)
        | None => Dict.set (api r) module new
        end in
      let l' := default [] (Dict.get api' module) in
      Return {| api := api';
                attributes :=
                  Dict.update (attributes r)
                    (List.map (fun a => (a, module)) (names l'));
                codecs := Dict.set (codecs r) codec module |}
  end.

Fixpoint first_group (l : list api_entry) : option (list string) :=
  match l with
  | [] => None
  | Group g :: _ => Some g
  | Attr _ :: l' => first_group l'
  end.

(** [list.remove(x)]: the first occurrence. *)
Fixpoint remove_first (x : api_entry) (l : list api_entry)
  : list api_entry :=
  match l with
  | [] => []
  | y :: l' => if decide (y = x) then l' else y :: remove_first x l'
  end.

(** One iteration of the outer loop of [_register_codecs]. *)
Definition register_module (r : result registry) (module : option string)
  : result registry :=
  bind r (fun r =>
    let attrs := default [] (Dict.get (api r) module) in
    match first_group attrs with
    | Some g =>
        let r1 := {| api := Dict.set (api r) module
                              (remove_first (Group g) attrs);
                     attributes := attributes r;
                     codecs := codecs r |} in
        fold_left (fun r codec =>
                     bind r (_add_codec module (Some codec)))
                  g (Return r1)
    | None => _add_codec module None r
    end).

(** [_register_codecs()] *)
Definition _register_codecs (r : registry) : result registry :=
  fold_left register_module (Dict.keys (api r)) (Return r).

(** The registry after the module has been initialised. *)
Definition registered : registry :=
  match _register_codecs initial with
  | Return r => r
  | Raise _ => initial
  end.

Definition _API : list (option string * list api_entry) := api registered.
Definition _ATTRIBUTES : list (string * option string) :=
  attributes registered.
Definition _CODECS : list (string * option string) := codecs registered.

(** [_COMPATIBILITY.get(name, name)] *)
Definition canonical (name : string) : string :=
  default name (Dict.get _COMPATIBILITY name).

(** [sorted] on strings: insertion into an ordered list. *)
Fixpoint insert_sorted (x : string) (l : list string) : list string :=
  match l with
  | [] => [x]
  | y :: l' => if String.leb x y then x :: l else y :: insert_sorted x l'
  end.
Definition sorted (l : list string) : list string :=
  fold_right insert_sorted [] l.

(** [__dir__()] *)
Definition __dir__ : list string :=
  sorted (Dict.keys _ATTRIBUTES ++ Dict.keys _COMPATIBILITY).

End Registry.

(** ** Values of the namespace and the stub factory *)

(** The metaclass [StubType] as [_stub] builds it: it closes over [name],
    and defines [__bool__] only when [module is None]. *)
Record StubType : Type := {
  stub_name : string;
  defines_bool : bool
}.

(** The objects the dispatch machinery handles.  Objects that come from a
    bound backend module, and the functions defined at the top level of
    the source file, are named tokens; what calling them does is given by
    the environment below. *)
Inductive value : Type :=
| PyNone
| PyBool (b : bool)
| PyStr (s : string)
| PyBytes (b : string)
| ndarray (dtype : string) (shape : list nat) (buffer : string)
| Global (name : string)
| Native (module attr : string)
| Instance (cls : string)
| stub_version (name : string) (unbound : bool)
| stub_check
| stub_decode (name : string)
| stub_encode (name : string)
| stub_function (name : string)
| StubError (name : string)
| STUB (meta : StubType)
| Stub (meta : StubType).

Global Instance StubType_eq_dec : EqDecision StubType.
Proof. solve_decision. Defined.
Global Instance value_eq_dec : EqDecision value.
Proof. solve_decision. Defined.

(** A bound backend module: [getattr(module, n, None)], with [None] for a
    name the module does not have. *)
Definition backend_module : Type := string -> option value.

(** Keyword arguments. *)
Definition kwargs : Type := list (string * value).

Module Stubs.

(** [_stub(name, module)] *)
Definition _stub (name : string) (module : option backend_module) : value :=
  if PyStr.endswith name "_version" then
    match module with
    | None => stub_version name true
    | Some _ => stub_version name false
    end
  else if PyStr.endswith name "_check" then stub_check
  else if PyStr.endswith name "_decode" then stub_decode name
  else if PyStr.endswith name "_encode" then stub_encode name
  else if PyStr.islower name then stub_function name
  else if PyStr.endswith name "Error" then StubError name
  else
    let StubType_ :=
      {| stub_name := name;
         defines_bool := match module with None => true | Some _ => false end
      |} in
    if PyStr.isupper name then STUB StubType_ else Stub StubType_.

(** The body of the two [stub_version] closures. *)
Definition stub_version_body (name : string) (unbound : bool) : string :=
  if unbound then PyStr.slice_end name 8 +:+ " n/a"
  else PyStr.slice_end name 8 +:+ " unknow".

(** [StubType.__getattr__(cls, arg)] *)
Definition StubType___getattr__ (cls : StubType) (arg : string)
  : result value :=
  Raise (DelayedImportError (stub_name cls)).

(** [bool(cls)] for a class whose metaclass is [StubType]: the
    metaclass's [__bool__] where it is defined, and Python's default
    (true) where it is not. *)
Definition StubType_bool (cls : StubType) : result bool :=
  if defines_bool cls then Return false else Return true.

(** [f.__name__] *)
Definition stub___name__ (v : value) : option string :=
  match v with
  | stub_version _ _ => Some "stub_version"
  | stub_check => Some "stub_check"
  | stub_decode _ => Some "stub_decode"
  | stub_encode _ => Some "stub_encode"
  | stub_function _ => Some "stub_function"
  | StubError _ => Some "StubError"
  | STUB _ => Some "STUB"
  | Stub _ => Some "Stub"
  | _ => None
  end.


(** The name and the docstring the class statements of [_stub] give
    their classes. *)
Definition class_statement (cls : value) : option (string * string) :=
  match cls with
  | STUB _ => Some ("STUB", "Stub for imagecodecs.CODEC constants.")
  | Stub _ => Some ("Stub", "Stub for imagecodecs.Codec class.")
  | _ => None
  end.

(** Ordinary attribute lookup on such a class: [__name__] and [__doc__]
    come from the class statement; [inherited] stands for everything the
    class gets from [object] and from its metaclass, which the source
    does not show. *)
Definition ordinary_lookup (inherited : string -> option value)
    (cls : value) (attr : string) : option value :=
  match class_statement cls with
  | Some (name, doc) =>
      if String.eqb attr "__name__" then Some (PyStr name)
      else if String.eqb attr "__doc__" then Some (PyStr doc)
      else inherited attr
  | None => inherited attr
  end.

(** [getattr(cls, attr)] for a class whose metaclass is [StubType]:
    ordinary lookup first, the metaclass's [__getattr__] for what it
    does not find. *)
Definition getattr_class (inherited : string -> option value)
    (cls : value) (attr : string) : result value :=
  match ordinary_lookup inherited cls attr with
  | Some v => Return v
  | None =>
      match cls with
      | STUB meta | Stub meta => StubType___getattr__ meta attr
      | _ => Raise (AttributeError ("object has no attribute "
                                      +:+ PyStr.repr attr))
      end
  end.

End Stubs.

(** ** The environment: backends and the functions outside the core *)

Record environment : Type := {
  (** [importlib.import_module('._' + module_, 'imagecodecs')] *)
  import_module : string -> result backend_module;
  (** [from . import _shared] *)
  import_shared : result unit;
  (** calling an object of a backend module *)
  native_call : string -> string -> list value -> kwargs -> result value;
  (** its [__name__] *)
  native_name : string -> string -> option string;
  (** calling a top-level function of the source other than
      [none_decode] and [none_encode] *)
  global_call : string -> list value -> kwargs -> result value;
  (** [os.path.splitext(os.fspath(path))[-1][1:]] *)
  splitext_ext : string -> string;
  (** opening the file at a path and reading or mapping its content *)
  open_read : string -> bool -> result value;
  (** [repr(v)] of a value that is not a string *)
  value_repr : value -> string;
  (** the exception of [v + '_decode'] for a [v] that is not a string *)
  add_str_error : value -> exn
}.

(** ** The codec [none] *)

(** [none_decode(data, *args, **kwargs)] *)
Definition none_decode (data : value) (args : list value) (kw : kwargs)
  : value := data.

(** [none_encode(data, *args, **kwargs)] *)
Definition none_encode (data : value) (args : list value) (kw : kwargs)
  : value := data.

(** ** Calling a value *)

Section Call.
Context (E : environment).

Definition not_callable (v : value) : result value :=
  Raise (TypeError "object is not callable").
Definition bad_arguments (f : string) : result value :=
  Raise (TypeError (f +:+ "() got unexpected arguments")).

(** Calling [f] with positional arguments [args] and keywords [kw].
    The keywords are those that end up in the callee's keyword
    dictionary: a keyword that names a parameter already filled by
    position, for which Python raises [TypeError], is outside the model.
    The classes [STUB] and [Stub] define no [__init__], so they take no
    arguments.  The top-level functions of the source other than the
    codec [none] are called through the environment, which returns
    their result and cannot show what they add to the namespace. *)
Definition call (f : value) (args : list value) (kw : kwargs)
  : result value :=
  match f with
  | stub_version name unbound =>
      match args, kw with
      | [], [] => Return (PyStr (Stubs.stub_version_body name unbound))
      | _, _ => bad_arguments "stub_version"
      end
  | stub_check =>
      match args, kw with
      | [_], [] => Return (PyBool false)
      | [], [("arg", _)] => Return (PyBool false)
      | _, _ => bad_arguments "stub_check"
      end
  | stub_decode name => Raise (DelayedImportError name)
  | stub_encode name => Raise (DelayedImportError name)
  | stub_function name => Raise (DelayedImportError name)
  | StubError name => Raise (DelayedImportError name)
  | STUB _ =>
      match args, kw with
      | [], [] => Return (Instance "STUB")
      | _, _ => Raise (TypeError "STUB() takes no arguments")
      end
  | Stub _ =>
      match args, kw with
      | [], [] => Return (Instance "Stub")
      | _, _ => Raise (TypeError "Stub() takes no arguments")
      end
  | Global "none_decode" =>
      match args with
      | data :: args' => Return (none_decode data args' kw)
      | [] => bad_arguments "none_decode"
      end
  | Global "none_encode" =>
      match args with
      | data :: args' => Return (none_encode data args' kw)
      | [] => bad_arguments "none_encode"
      end
  | Global name => global_call E name args kw
  | Native module attr => native_call E module attr args kw
  | PyNone | PyBool _ | PyStr _ | PyBytes _ | ndarray _ _ _ | Instance _ =>
      not_callable f
  end.

(** [callable(v)] *)
Definition callable (v : value) : bool :=
  match v with
  | PyNone | PyBool _ | PyStr _ | PyBytes _ | ndarray _ _ _ | Instance _ =>
      false
  | _ => true
  end.

(** [f.__name__] *)
Definition __name__ (f : value) : option string :=
  match f with
  | Global name => Some name
  | Native module attr => native_name E module attr
  | _ => Stubs.stub___name__ f
  end.

End Call.

(** ** The lazy resolver *)

(** The package namespace and the record of the backend imports that
    were attempted. *)
Record state : Type := {
  namespace : gmap string value;
  imported : list string
}.

Module Resolver.
Import Registry.

Section Resolver.
Context (E : environment).

(** The [try: import_module ... except ImportError ... except
    AttributeError ...] block: the bound module, [None] after a
    failure that is absorbed, or the exception that escapes. *)
Definition bind_backend (module_ : string)
  : result (option backend_module) :=
  match import_module E ("._" +:+ module_) with
  | Return m => Return (Some m)
  | Raise e =>
      if is_ImportError e then Return None
      else if is_AttributeError e then
        match import_shared E with
        | Return _ => Return None
        | Raise e' => Raise e'
        end
      else Raise e
  end.

(** [attr = getattr(module, n, None)], replaced by [_stub(n, module)]
    when it is [None]. *)
Definition provided (module : option backend_module) (n : string)
  : value :=
  let attr := match module with
              | Some m => default PyNone (m n)
              | None => PyNone
              end in
  match attr with
  | PyNone => Stubs._stub n module
  | _ => attr
  end.

(** One iteration of [for n in _API[module_]]. *)
Definition attach (module : option backend_module)
    (ns : gmap string value) (n : string) : gmap string value :=
  if Dict.mem _COMPATIBILITY n then ns
  else <[n := provided module n]> ns.

(** [__getattr__(name)].  The final [getattr(imagecodecs, name)]
    re-enters the resolver when the name is still missing from the
    namespace; [depth] is the interpreter's recursion limit. *)
Fixpoint __getattr__ (depth : nat) (st : state) (name_ : string)
  : result value * state :=
  match depth with
  | 0 => (Raise (RecursionError "maximum recursion depth exceeded"), st)
  | S depth' =>
      let name := canonical name_ in
      match Dict.get _ATTRIBUTES name with
      | None =>
          (Raise (AttributeError
                    ("module 'imagecodecs' has no attribute "
                       +:+ PyStr.repr name)), st)
      | Some None => (Return PyNone, st)
      | Some (Some module_) =>
          let st := {| namespace := namespace st;
                       imported := imported st ++ [module_] |} in
          match bind_backend module_ with
          | Raise e => (Raise e, st)
          | Return module =>
              match Dict.get _API (Some module_) with
              | None => (Raise (KeyError (PyStr.repr module_)), st)
              | Some l =>
                  let st := {| namespace :=
                                 fold_left (attach module) (names l)
                                           (namespace st);
                               imported := imported st |} in
                  let '(attr, st) :=
                    match namespace st !! name with
                    | Some v => (Return v, st)
                    | None => __getattr__ depth' st name
                    end in
                  match attr with
                  | Raise e => (Raise e, st)
                  | Return attr =>
                      if decide (name = name_) then (Return attr, st)
                      else (Return attr,
                            {| namespace := <[name_ := attr]> (namespace st);
                               imported := imported st |})
                  end
              end
          end
      end
  end.

(** The namespace once [__getattr__] has run its loop over the list
    [l] and bound the alias, if one was asked for. *)
Definition resolved_namespace (module : option backend_module)
    (l : list string) (name_ : string) (ns : gmap string value)
  : gmap string value :=
  let ns' := fold_left (attach module) l ns in
  if decide (canonical name_ = name_) then ns'
  else <[name_ := provided module (canonical name_)]> ns'.

(** The backend did not bind: its import raises an [ImportError], or
    an [AttributeError] while [_shared] can be imported. *)
Definition never_bound (module_ : string) : Prop :=
  exists e,
    import_module E ("._" +:+ module_) = Raise e
    /\ (is_ImportError e = true
        \/ (is_AttributeError e = true /\ import_shared E = Return tt)).

(** The backend bound, without the attribute [name]. *)
Definition lacks (module_ name : string) : Prop :=
  exists m,
    import_module E ("._" +:+ module_) = Return m
    /\ default PyNone (m name) = PyNone.

(** [getattr(imagecodecs, name)]: the namespace first, the resolver
    for a name that is not there. *)
Definition getattr (depth : nat) (st : state) (name : string)
  : result value * state :=
  match namespace st !! name with
  | Some v => (Return v, st)
  | None => __getattr__ depth st name
  end.

End Resolver.
End Resolver.

(** The names the source file itself defines at its top level, as they
    stand in the namespace before any resolution.  [NONE] and [NUMPY] are
    [True], the three error names are [RuntimeError]. *)
Definition module_globals : gmap string value :=
  list_to_map
    [ ("version", Global "version"); ("imread", Global "imread");
      ("imwrite", Global "imwrite"); ("imagefileext", Global "imagefileext");
      ("DelayedImportError", Global "DelayedImportError");
      ("NONE", PyBool true); ("NoneError", Global "RuntimeError");
      ("none_version", Global "none_version");
      ("none_check", Global "none_check");
      ("none_decode", Global "none_decode");
      ("none_encode", Global "none_encode");
      ("NUMPY", PyBool true); ("NumpyError", Global "RuntimeError");
      ("numpy_version", Global "numpy_version");
      ("numpy_check", Global "numpy_check");
      ("numpy_decode", Global "numpy_decode");
      ("numpy_encode", Global "numpy_encode");
      ("JpegError", Global "RuntimeError");
      ("jpeg_decode", Global "jpeg_decode");
      ("jpeg_encode", Global "jpeg_encode") ].

Definition initial_state : state :=
  {| namespace := module_globals; imported := [] |}.

(** An environment without any backend: every import fails. *)
Definition no_backends : environment :=
  {| import_module := fun m => Raise (ImportError ("No module named " +:+ m));
     import_shared := Return tt;
     native_call := fun _ _ _ _ => Raise (OtherError "RuntimeError" "unreachable");
     native_name := fun _ _ => None;
     global_call := fun n _ _ => Raise (ValueError ("not a " +:+ n +:+ " input"));
     splitext_ext := fun _ => EmptyString;
     open_read := fun p _ => Raise (OtherError "FileNotFoundError" p);
     value_repr := fun _ => "<object>";
     add_str_error := fun _ => TypeError "unsupported operand type(s) for +" |}.

(** ** The generic reader [imread] *)

(** The [codec] argument of [imread] when it is not [None]: one codec, or
    a list or tuple of them. *)
Inductive hint : Type :=
| One (c : value)
| Several (l : list value).

(** The [fileobj] argument of [imread]. *)
Inductive fileobj : Type :=
| Path (p : string)          (* str or os.PathLike *)
| Mmap (data : value)        (* mmap.mmap *)
| Stream (content : value)   (* an object with a read method *)
| Data (data : value).       (* binary data *)

Module Imread.
Import Registry.

(** The literal of [_imcodecs]: codec names and their file extensions. *)
Definition _imcodecs_literal : list (string * list string) :=
  [ ("apng", ["apng"]);
    ("avif", ["avif"; "avifs"]);
    ("brunsli", ["brn"]);
    ("gif", ["gif"]);
    ("heif", ["heif"; "heic"; "heifs"; "heics"; "hif"]);
    ("jpeg", ["jpg"; "jpeg"; "jpe"; "jfif"; "jif"; "ljpeg"]);
    ("jpeg2k", ["j2k"; "jp2"; "j2c"; "jpc"; "jpx"; "jpf"]);
    ("jpegls", ["jls"]);
    ("jpegxl", ["jxl"]);
    ("jpegxr", ["jxr"; "hdp"; "wdp"]);
    ("lerc", ["lerc1"; "lerc2"]);
    ("numpy", ["npy"; "npz"]);
    ("png", ["png"]);
    ("qoi", ["qoi"]);
    ("rgbe", ["hdr"; "rgbe"; "pic"]);
    ("tiff", ["tif"; "tiff"; "ptif"; "ptiff"; "tf8"; "tf2"; "btf"]);
    ("webp", ["webp"]);
    ("zfp", ["zfp"]) ].

(** [_imcodecs()]: the map of file extensions to codec names. *)
Definition _imcodecs : list (string * string) :=
  Dict.update []
    (flat_map (fun ce => List.map (fun ext => (ext, fst ce)) (snd ce))
              _imcodecs_literal).

(** The imaging codecs tried after the one of the file extension. *)
Definition other_codecs : list string :=
  [ "tiff"; "apng"; "png"; "gif"; "webp"; "jpeg8"; "jpeg12"; "jpegsof3";
    "jpeg2k"; "jpegls"; "jpegxr"; "jpegxl"; "avif"; "heif"; "ljpeg";
    "zfp"; "lerc"; "rgbe"; "numpy" ].

Definition jpeg_variants : list string :=
  [ "jpeg8"; "jpeg12"; "jpegsof3"; "ljpeg" ].

(** [codecs.extend(c for c in other if c not in codecs)]: the generator
    reads the list while it grows. *)
Definition extend_new (codecs : list value) (other : list string)
  : list value :=
  fold_left (fun acc c =>
               if bool_decide (PyStr c ∈ acc) then acc
               else acc ++ [PyStr c])
            other codecs.

(** One iteration of [for c in codec]. *)
Definition hinted (c : value) : value :=
  match c with
  | PyStr c =>
      let c := PyStr.lower c in
      PyStr (default c (Dict.get _imcodecs c))
  | _ => c
  end.

Section Imread.
Context (E : environment).

(** The extension of the file name, when [fileobj] is one. *)
Definition extension (f : fileobj) : option string :=
  match f with
  | Path p => Some (PyStr.lower (splitext_ext E p))
  | _ => None
  end.

(** The first part of [imread]: the list [codecs]. *)
Definition candidates (f : fileobj) (codec : option hint) : list value :=
  match codec with
  | None =>
      let codecs :=
        match extension f with
        | Some ext =>
            match Dict.get _imcodecs ext with
            | Some codec =>
                if String.eqb codec "jpeg"
                then List.map PyStr jpeg_variants
                else [PyStr codec]
            | None => []
            end
        | None => []
        end in
      extend_new codecs other_codecs
  | Some (One c) => [hinted c]
  | Some (Several l) => List.map hinted l
  end.

(** The second part: the data handed to the decoders.  The read
    position of a memory map, which the loop restores after a failed
    trial, and its closing are not part of the model. *)
Definition acquire (f : fileobj) (memmap : bool) : result value :=
  match f with
  | Mmap data => Return data
  | Stream content => Return content
  | Path p => open_read E p memmap
  | Data data => Return data
  end.

(** The variables of the trial loop. *)
Record loop : Type := {
  exceptions : list string;
  image : value;
  func : option value;
  resolver : state
}.

Inductive step : Type :=
| Break (l : loop)
| Continue (l : loop)
| Escape (e : exn) (st : state).

Definition repr_codec (codec : value) : string :=
  match codec with
  | PyStr s => PyStr.repr s
  | _ => value_repr E codec
  end.

(** [image.dtype] *)
Definition dtype_of (v : value) : result string :=
  match v with
  | ndarray dtype _ _ => Return dtype
  | _ => Raise (AttributeError "object has no attribute 'dtype'")
  end.

(** The handler [except Exception as exc] of the call: it reads
    [func.__name__], which raises when there is none. *)
Definition record_failure (l : loop) (image : value) (func : value)
    (st : state) (exc : exn) : step :=
  match __name__ E func with
  | Some name =>
      Continue {| exceptions :=
                    exceptions l
                      ++ [PyStr.upper name +:+ ": " +:+ str_exn exc];
                  image := image; func := Some func; resolver := st |}
  | None =>
      Escape (AttributeError "object has no attribute '__name__'") st
  end.

(** The decode function of a candidate: the candidate itself when it
    is callable, the attribute [codec + '_decode'] of the package
    otherwise. *)
Definition resolve (depth : nat) (st : state) (codec : value)
  : result value * state :=
  if callable codec then (Return codec, st)
  else match codec with
       | PyStr c => Resolver.getattr E depth st (c +:+ "_decode")
       | _ => (Raise (add_str_error E codec), st)
       end.

(** The body of [for codec in codecs]. *)
Definition trial (depth : nat) (data : value) (kw : kwargs)
    (l : loop) (codec : value) : step :=
  let '(resolved, st) := resolve depth (resolver l) codec in
  match resolved with
  | Raise exc =>
      Continue {| exceptions :=
                    exceptions l
                      ++ [PyStr.upper (repr_codec codec) +:+ ": "
                            +:+ str_exn exc];
                  image := image l; func := func l; resolver := st |}
  | Return func_ =>
      match call E func_ [data] kw with
      | Raise exc =>
          if is_DelayedImportError exc
          then Continue {| exceptions := exceptions l; image := image l;
                           func := Some func_; resolver := st |}
          else record_failure l (image l) func_ st exc
      | Return image_ =>
          match dtype_of image_ with
          | Raise exc => record_failure l image_ func_ st exc
          | Return dtype =>
              if String.eqb dtype "object"
              then record_failure l PyNone func_ st (ValueError "failed")
              else Break {| exceptions := exceptions l; image := image_;
                            func := Some func_; resolver := st |}
          end
      end
  end.

(** [for codec in codecs: ...] *)
Fixpoint trials (depth : nat) (data : value) (kw : kwargs)
    (l : loop) (codecs : list value) : step :=
  match codecs with
  | [] => Continue l
  | codec :: codecs' =>
      match trial depth data kw l codec with
      | Continue l' => trials depth data kw l' codecs'
      | s => s
      end
  end.

(** What [imread] returns: the image, or the pair of the image and
    the decode function. *)
Inductive returned : Type :=
| Image (image : value)
| ImageAndCodec (image : value) (func : option value).

(** The last part of [imread], after the loop. *)
Definition finish (return_codec : bool) (s : step)
  : result returned * state :=
  match s with
  | Escape e st => (Raise e, st)
  | Break l | Continue l =>
      match image l with
      | PyNone =>
          (Raise (ValueError (PyStr.join PyStr.newline (exceptions l))),
           resolver l)
      | image =>
          (Return (if return_codec then ImageAndCodec image (func l)
                   else Image image),
           resolver l)
      end
  end.

(** The variables before the loop: [exceptions = []],
    [image = None], and [func] not yet bound. *)
Definition start (st : state) : loop :=
  {| exceptions := []; image := PyNone; func := None; resolver := st |}.

(** [imread(fileobj, codec, memmap, return_codec, **kwargs)] *)
Definition imread (depth : nat) (st : state) (f : fileobj)
    (codec : option hint) (memmap return_codec : bool) (kw : kwargs)
  : result returned * state :=
  let codecs := candidates f codec in
  match acquire f memmap with
  | Raise e => (Raise e, st)
  | Return data =>
      finish return_codec
        (trials depth data kw (start st) codecs)
  end.

(** *** The failures of the trial loop, as the specification words them

    A candidate is rejected when its decode function cannot be
    resolved, when the call raises, or when the decoded array has the
    element type [object].  A rejection leaves a diagnostic line, the
    name in upper case followed by the message, except when the call
    raises the deferred-unavailability error, which leaves none. *)
Definition diagnostic (name : string) (exc : exn) : string :=
  PyStr.upper name +:+ ": " +:+ str_exn exc.



End Imread.
End Imread.

(** ** Loading everything: [_load_all] *)

Module Loader.

Section Loader.
Context (E : environment).

(** One iteration of [for name in __dir__(): __getattr__(name)]: the
    value is dropped, an exception ends the loop. *)
Definition load (depth : nat) (acc : result unit * state) (name : string)
  : result unit * state :=
  match acc with
  | (Return _, st) =>
      match Resolver.__getattr__ E depth st name with
      | (Return _, st') => (Return tt, st')
      | (Raise e, st') => (Raise e, st')
      end
  | (Raise e, st) => (Raise e, st)
  end.

(** [_load_all()] *)
Definition _load_all (depth : nat) (st : state) : result unit * state :=
  fold_left (load depth) Registry.__dir__ (Return tt, st).

(** What a name is bound to once its backend has been tried: the
    attribute of the bound module, or its stub.  [None] for a name
    without an owning backend module, and when the import raises. *)
Definition expected (name : string) : option value :=
  match Dict.get Registry._ATTRIBUTES (Registry.canonical name) with
  | Some (Some module_) =>
      match Resolver.bind_backend E module_ with
      | Return module =>
          Some (Resolver.provided module (Registry.canonical name))
      | Raise _ => None
      end
  | _ => None
  end.

End Loader.
End Loader.

(** ** The generic writer [imwrite] *)

(** What [imwrite] hands to the destination: the bytes given to the
    [write] method of a stream, or written to the file opened at a path. *)
Inductive written : Type :=
| ToStream (data : value)
| ToFile (path : string) (data : value).

Module Imwrite.

Section Imwrite.
Context (E : environment).

(** [getattr(imagecodecs, codec + '_encode')], with the [AttributeError]
    turned into [ValueError(f'invalid codec {codec!r}')]; [codec] is
    still the name when the handler runs. *)
Definition encoder (depth : nat) (st : state) (codec : string)
  : result value * state :=
  match Resolver.getattr E depth st (codec +:+ "_encode") with
  | (Raise e, st') =>
      if is_AttributeError e
      then (Raise (ValueError ("invalid codec " +:+ PyStr.repr codec)), st')
      else (Raise e, st')
  | (Return func_, st') => (Return func_, st')
  end.

(** The first part of [imwrite]: the encode function.  The extension is
    [os.path.splitext(os.fspath(fileobj))[-1].lower()[1:]]. *)
Definition select (depth : nat) (st : state) (f : fileobj)
    (codec : option value) : result value * state :=
  match codec with
  | None =>
      match f with
      | Path p =>
          let ext := PyStr.lower (splitext_ext E p) in
          encoder depth st (default ext (Dict.get Imread._imcodecs ext))
      | _ => (Raise (ValueError "no codec specified"), st)
      end
  | Some (PyStr codec) =>
      let codec := PyStr.lower codec in
      encoder depth st (default codec (Dict.get Imread._imcodecs codec))
  | Some codec =>
      if callable codec then (Return codec, st)
      else (Raise (ValueError ("invalid codec " +:+ value_repr E codec)), st)
  end.

(** Where the encoded data goes: the [write] method of an object that
    has one, the file at [str(fileobj)] otherwise. *)
Definition deliver (f : fileobj) (data : value) : written :=
  match f with
  | Path p => ToFile p data
  | Mmap _ | Stream _ => ToStream data
  | Data d => ToFile (value_repr E d) data
  end.

(** [imwrite(fileobj, data, codec, **kwargs)] *)
Definition imwrite (depth : nat) (st : state) (f : fileobj) (data : value)
    (codec : option value) (kw : kwargs) : result written * state :=
  match select depth st f codec with
  | (Raise e, st') => (Raise e, st')
  | (Return codec, st') =>
      match call E codec [data] kw with
      | Raise e => (Raise e, st')
      | Return data => (Return (deliver f data), st')
      end
  end.

End Imwrite.
End Imwrite.

(** ** The codecs [numpy] and [jpeg] of the source file *)

Module Builtin.

(** [sub in s] *)
Fixpoint contains (sub s : string) : bool :=
  if String.prefix sub s then true
  else match s with
       | EmptyString => false
       | String _ s' => contains sub s'
       end.

(** [b'\x93NUMPY'] *)
Definition numpy_magic : string := String (ascii_of_nat 147) "NUMPY".

(** [numpy_check(data)] on bytes: only the first 64 bytes are read. *)
Definition numpy_check (data : string) : bool :=
  let data := String.substring 0 64 data in
  String.prefix numpy_magic data
  || (String.prefix "PK" data && contains numpy_magic data).

(** The keyword parameters of [jpeg_decode]; [bitspersample] is [None]
    or an integer, [header] is [None] or bytes. *)
Record decode_options : Type := {
  d_bitspersample : option nat;
  d_tables : value;
  d_header : option string;
  d_colorspace : value;
  d_outcolorspace : value;
  d_shape : value;
  d_numthreads : value;
  d_out : value
}.

(** The keyword parameters of [jpeg_encode]; [e_lossless] is the truth
    value of the argument [lossless]. *)
Record encode_options : Type := {
  e_level : value;
  e_colorspace : value;
  e_outcolorspace : value;
  e_subsampling : value;
  e_optimize : value;
  e_smoothing : value;
  e_lossless : bool;
  e_bitspersample : value;
  e_numthreads : value;
  e_out : value
}.

(** [b'\xff\xd9'] *)
Definition end_of_image : string :=
  String (ascii_of_nat 255) (String (ascii_of_nat 217) EmptyString).

Section Builtin.
Context (E : environment).

(** Calling the attribute [name] of the package: the attribute is
    looked up, then called. *)
Definition invoke (depth : nat) (st : state) (name : string)
    (args : list value) (kw : kwargs) : result value * state :=
  match Resolver.getattr E depth st name with
  | (Return func_, st') => (call E func_ args kw, st')
  | (Raise e, st') => (Raise e, st')
  end.

Definition baseline_kwargs (o : decode_options) : kwargs :=
  [ ("tables", d_tables o); ("colorspace", d_colorspace o);
    ("outcolorspace", d_outcolorspace o); ("shape", d_shape o);
    ("numthreads", d_numthreads o); ("out", d_out o) ].

Definition lossless_kwargs (o : decode_options) : kwargs :=
  [ ("numthreads", d_numthreads o); ("out", d_out o) ].

(** [try: return jpegsof3_decode(...) except Exception: return
    ljpeg_decode(...)] *)
Definition lossless_decode (depth : nat) (st : state) (data : value)
    (o : decode_options) : result value * state :=
  match invoke depth st "jpegsof3_decode" [data] (lossless_kwargs o) with
  | (Return image, st') => (Return image, st')
  | (Raise _, st') =>
      invoke depth st' "ljpeg_decode" [data] (lossless_kwargs o)
  end.

(** [data = header + data + b'\xff\xd9'] when a header is given. *)
Definition with_header (data : value) (o : decode_options) : result value :=
  match d_header o with
  | None => Return data
  | Some header =>
      match data with
      | PyBytes b => Return (PyBytes (header +:+ b +:+ end_of_image))
      | _ => Raise (TypeError "can't concat to bytes")
      end
  end.

(** [jpeg_decode(data, bitspersample, tables, header, ...)] *)
Definition jpeg_decode (depth : nat) (st : state) (data : value)
    (o : decode_options) : result value * state :=
  match with_header data o with
  | Raise e => (Raise e, st)
  | Return data =>
      match d_bitspersample o with
      | None =>
          match invoke depth st "jpeg8_decode" [data] (baseline_kwargs o) with
          | (Return image, st') => (Return image, st')
          | (Raise exc, st') =>
              let msg := str_exn exc in
              if contains "Unsupported JPEG data precision" msg
              then invoke depth st' "jpeg12_decode" [data] (baseline_kwargs o)
              else if contains "SOF type" msg
              then lossless_decode depth st' data o
              else (Raise exc, st')
          end
      | Some bits =>
          let '(r, st') :=
            if bits =? 8
            then invoke depth st "jpeg8_decode" [data] (baseline_kwargs o)
            else if bits =? 12
            then invoke depth st "jpeg12_decode" [data] (baseline_kwargs o)
            else lossless_decode depth st data o in
          match r with
          | Return image => (Return image, st')
          | Raise exc =>
              if contains "SOF type" (str_exn exc)
              then lossless_decode depth st' data o
              else (Raise exc, st')
          end
      end
  end.

(** [jpeg_encode(data, level, ..., lossless, bitspersample, ...)] *)
Definition jpeg_encode (depth : nat) (st : state) (data : value)
    (o : encode_options) : result value * state :=
  if e_lossless o
  then invoke depth st "ljpeg_encode" [data]
         [ ("bitspersample", e_bitspersample o); ("out", e_out o) ]
  else
    match Imread.dtype_of data with
    | Raise e => (Raise e, st)
    | Return dtype =>
        let kw := [ ("level", e_level o); ("colorspace", e_colorspace o);
                    ("outcolorspace", e_outcolorspace o);
                    ("subsampling", e_subsampling o);
                    ("optimize", e_optimize o);
                    ("smoothing", e_smoothing o);
                    ("numthreads", e_numthreads o); ("out", e_out o) ] in
        if String.eqb dtype "uint8"
        then invoke depth st "jpeg8_encode" [data] kw
        else if String.eqb dtype "uint16"
        then invoke depth st "jpeg12_encode" [data] kw
        else (Raise (ValueError ("invalid data type " +:+ dtype)), st)
    end.

End Builtin.
End Builtin.

(** An environment with two backends.  [png] binds and provides
    everything but [png_version]; its decoder accepts data that starts
    with the letters PNG.  Importing [zlib] fails with an
    [AttributeError], as a backend built against another numpy does.
    Every other backend is missing. *)
Definition png_module : backend_module :=
  fun n =>
    if bool_decide (n ∈ ["png_encode"; "png_decode"; "png_check";
                         "PngError"; "PNG"])
    then Some (Native "png" n) else None.

Definition sample_backends : environment :=
  {| import_module := fun m =>
       if String.eqb m "._png" then Return png_module
       else if String.eqb m "._zlib"
       then Raise (AttributeError "has no attribute '__reduce_cython__'")
       else Raise (ImportError ("No module named " +:+ m));
     import_shared := Return tt;
     native_call := fun m a args _ =>
       match a, args with
       | "png_decode", [PyBytes b] =>
           if String.prefix "PNG" b then Return (ndarray "uint8" [1] b)
           else if String.prefix "OBJ" b then Return (ndarray "object" [1] b)
           else Raise (OtherError "PngError" "not a PNG image")
       | _, _ => Raise (TypeError "bad arguments")
       end;
     native_name := fun _ a => Some a;
     global_call := fun n _ _ => Raise (ValueError ("not a " +:+ n +:+ " input"));
     splitext_ext := fun p =>
       if PyStr.endswith p ".jpg" then "jpg"
       else if PyStr.endswith p ".PNG" then "PNG"
       else EmptyString;
     open_read := fun p _ => Return (PyBytes "PNG data");
     value_repr := fun _ => "<object>";
     add_str_error := fun _ => TypeError "unsupported operand type(s) for +" |}.

(** An environment in which only [zlib] binds: it provides every
    attribute under the attribute's own name, and its functions reject
    the data. *)
Definition zlib_bound : environment :=
  {| import_module := fun m =>
       if String.eqb m "._zlib" then Return (fun n => Some (Native "zlib" n))
       else Raise (ImportError ("No module named " +:+ m));
     import_shared := Return tt;
     native_call := fun _ _ _ _ =>
       Raise (OtherError "ZlibError" "incorrect header check");
     native_name := fun _ a => Some a;
     global_call := global_call no_backends;
     splitext_ext := splitext_ext no_backends;
     open_read := open_read no_backends;
     value_repr := value_repr no_backends;
     add_str_error := add_str_error no_backends |}.


(** * Properties *)

(** ** Strings *)

Lemma eqb_true_eq (s t : string) : String.eqb s t = true -> s = t.
Proof. apply String.eqb_eq. Qed.

Lemma endswith_refl (s : string) : PyStr.endswith s s = true.
Proof. destruct s; cbn [PyStr.endswith]; rewrite String.eqb_refl; reflexivity. Qed.

Lemma endswith_app (p suffix : string) :
  PyStr.endswith (p +:+ suffix) suffix = true.
Proof.
  induction p as [|c p IH].
  - apply endswith_refl.
  - change (String c p +:+ suffix) with (String c (p +:+ suffix)).
    cbn [PyStr.endswith]. rewrite IH. destruct (String.eqb _ _); reflexivity.
Qed.

Lemma endswith_inv (s suffix : string) :
  PyStr.endswith s suffix = true -> exists p, s = p +:+ suffix.
Proof.
  induction s as [|c s IH]; cbn [PyStr.endswith].
  - destruct suffix; simpl; [exists EmptyString; reflexivity | discriminate].
  - destruct (String.eqb (String c s) suffix) eqn:Heq.
    + apply eqb_true_eq in Heq. exists EmptyString. exact Heq.
    + intros H. destruct (IH H) as [p ->]. exists (String c p). reflexivity.
Qed.

(** Two suffixes of one string: one is a suffix of the other. *)
Lemma endswith_comparable (s a b : string) :
  PyStr.endswith s a = true -> PyStr.endswith s b = true ->
  PyStr.endswith a b = true \/ PyStr.endswith b a = true.
Proof.
  induction s as [|c s IH]; cbn [PyStr.endswith].
  - destruct a, b; simpl; auto; discriminate.
  - destruct (String.eqb (String c s) a) eqn:Ha.
    + apply eqb_true_eq in Ha. subst a. intros _ Hb. left.
      cbn [PyStr.endswith]. exact Hb.
    + destruct (String.eqb (String c s) b) eqn:Hb.
      * apply eqb_true_eq in Hb. subst b. intros H _. right.
        cbn [PyStr.endswith]. rewrite Ha. exact H.
      * apply IH.
Qed.

Lemma existsb_app (p : ascii -> bool) (s t : string) :
  PyStr.existsb p (s +:+ t) = PyStr.existsb p s || PyStr.existsb p t.
Proof.
  induction s as [|c s IH]; simpl; [reflexivity|].
  rewrite IH, orb_assoc. reflexivity.
Qed.

Lemma endswith_existsb (p : ascii -> bool) (s suffix : string) :
  PyStr.endswith s suffix = true -> PyStr.existsb p suffix = true ->
  PyStr.existsb p s = true.
Proof.
  intros [q ->]%endswith_inv H. rewrite existsb_app, H. apply orb_true_r.
Qed.

Lemma substring_app_length (p t : string) :
  String.substring 0 (String.length p) (p +:+ t) = p.
Proof.
  induction p as [|c p IH]; simpl.
  - destruct t; reflexivity.
  - rewrite IH. reflexivity.
Qed.

Lemma length_app (s t : string) :
  String.length (s +:+ t) = String.length s + String.length t.
Proof. induction s; simpl; auto. Qed.

Lemma slice_end_app (p suffix : string) :
  PyStr.slice_end (p +:+ suffix) (String.length suffix) = p.
Proof.
  unfold PyStr.slice_end. rewrite length_app.
  replace (String.length p + String.length suffix - String.length suffix)
    with (String.length p) by lia.
  apply substring_app_length.
Qed.



(** A name in upper case is none of the lower-case shapes [_stub] looks
    for. *)
Lemma isupper_no_lower (s : string) :
  PyStr.isupper s = true -> PyStr.existsb PyStr.is_lower s = false.
Proof.
  unfold PyStr.isupper. intros [_ H]%andb_true_iff.
  apply negb_true_iff in H. exact H.
Qed.

Lemma isupper_not_endswith (s suffix : string) :
  PyStr.isupper s = true -> PyStr.existsb PyStr.is_lower suffix = true ->
  PyStr.endswith s suffix = false.
Proof.
  intros Hu Hl. destruct (PyStr.endswith s suffix) eqn:He; [|reflexivity].
  pose proof (isupper_no_lower _ Hu) as Hn.
  rewrite (endswith_existsb _ _ _ He Hl) in Hn. discriminate.
Qed.

Lemma isupper_not_islower (s : string) :
  PyStr.isupper s = true -> PyStr.islower s = false.
Proof.
  intros H. unfold PyStr.islower. rewrite (isupper_no_lower _ H). reflexivity.
Qed.

(** ** The stub factory *)

(** [name] ends with [a], so it does not end with the other suffix [b]
    (neither is a suffix of the other). *)
Ltac other_suffix Ha :=
  match goal with
  | |- PyStr.endswith ?s ?b = false =>
      let Hb := fresh "Hb" in
      destruct (PyStr.endswith s b) eqn:Hb; [exfalso | reflexivity];
      destruct (endswith_comparable _ _ _ Ha Hb) as [Hc | Hc];
      vm_compute in Hc; discriminate Hc
  end.

Lemma _stub_decode (name : string) (module : option backend_module) :
  PyStr.endswith name "_decode" = true ->
  Stubs._stub name module = stub_decode name.
Proof.
  intros H. unfold Stubs._stub.
  assert (PyStr.endswith name "_version" = false) as -> by other_suffix H.
  assert (PyStr.endswith name "_check" = false) as -> by other_suffix H.
  rewrite H. reflexivity.
Qed.

Lemma _stub_encode (name : string) (module : option backend_module) :
  PyStr.endswith name "_encode" = true ->
  Stubs._stub name module = stub_encode name.
Proof.
  intros H. unfold Stubs._stub.
  assert (PyStr.endswith name "_version" = false) as -> by other_suffix H.
  assert (PyStr.endswith name "_check" = false) as -> by other_suffix H.
  assert (PyStr.endswith name "_decode" = false) as -> by other_suffix H.
  rewrite H. reflexivity.
Qed.

Lemma _stub_version (name : string) (module : option backend_module) :
  PyStr.endswith name "_version" = true ->
  Stubs._stub name module =
    stub_version name (match module with None => true | Some _ => false end).
Proof.
  intros H. unfold Stubs._stub. rewrite H. destruct module; reflexivity.
Qed.

Lemma _stub_upper (name : string) (module : option backend_module) :
  PyStr.isupper name = true ->
  Stubs._stub name module =
    STUB {| stub_name := name;
            defines_bool :=
              match module with None => true | Some _ => false end |}.
Proof.
  intros H. unfold Stubs._stub.
  rewrite !(isupper_not_endswith name) by (exact H || reflexivity).
  rewrite (isupper_not_islower _ H), H. reflexivity.
Qed.

(** ** The registry *)

Lemma dict_get_In {K V : Type} `{EqDecision K} (d : list (K * V)) k v :
  Dict.get d k = Some v -> In (k, v) d.
Proof.
  induction d as [|[k' v'] d IH]; simpl; [discriminate|].
  destruct (decide (k' = k)) as [->|].
  - intros [= ->]. left. reflexivity.
  - intros H. right. apply IH, H.
Qed.

Lemma dict_mem_get {K V : Type} `{EqDecision K} (d : list (K * V)) k :
  Dict.mem d k = false -> Dict.get d k = None.
Proof. unfold Dict.mem. destruct (Dict.get d k); [discriminate | reflexivity]. Qed.

(** Registration goes through: no module is left without a codec name. *)
Lemma register_codecs_returns :
  Registry._register_codecs Registry.initial = Return Registry.registered.
Proof. vm_compute. reflexivity. Qed.

(** Every list of the literal holds at most one tuple of codec names. *)
Lemma literal_one_group :
  forallb (fun ml =>
             match Registry.first_group (snd ml) with
             | Some g =>
                 match Registry.first_group
                         (Registry.remove_first (Group g) (snd ml)) with
                 | None => true
                 | Some _ => false
                 end
             | None => true
             end)
          Registry._API_literal = true.
Proof. vm_compute. reflexivity. Qed.

(** After registration the lists hold names only. *)
Lemma registered_api_names_only :
  forallb (fun ml => bool_decide (List.map Attr (Registry.names (snd ml)) = snd ml))
          Registry._API = true.
Proof. vm_compute. reflexivity. Qed.

(** An attribute owned by a module is in that module's list. *)
Lemma attributes_in_api (name module_ : string) :
  Dict.get Registry._ATTRIBUTES name = Some (Some module_) ->
  exists l, Dict.get Registry._API (Some module_) = Some l
            /\ In name (Registry.names l).
Proof.
  intros H%dict_get_In.
  assert (forallb
            (fun am : string * option string =>
               match snd am with
               | None => true
               | Some m =>
                   match Dict.get Registry._API (Some m) with
                   | Some l => existsb (String.eqb (fst am)) (Registry.names l)
                   | None => false
                   end
               end) Registry._ATTRIBUTES = true) as Hall
    by (vm_compute; reflexivity).
  rewrite forallb_forall in Hall. specialize (Hall _ H). cbn [fst snd] in Hall.
  destruct (Dict.get Registry._API (Some module_)) as [l|]; [|discriminate].
  exists l. split; [reflexivity|].
  apply existsb_exists in Hall as (x & Hx & ->%eqb_true_eq). exact Hx.
Qed.

(** No canonical name is itself an alias. *)
Lemma canonical_not_alias (name : string) :
  Dict.mem Registry._COMPATIBILITY (Registry.canonical name) = false.
Proof.
  unfold Registry.canonical.
  destruct (Dict.get Registry._COMPATIBILITY name) as [target|] eqn:Hget; simpl.
  - apply dict_get_In in Hget.
    assert (forallb (fun kv : string * string =>
                       negb (Dict.mem Registry._COMPATIBILITY (snd kv)))
                    Registry._COMPATIBILITY = true) as Hall
      by (vm_compute; reflexivity).
    rewrite forallb_forall in Hall. specialize (Hall _ Hget).
    apply negb_true_iff in Hall. exact Hall.
  - unfold Dict.mem. rewrite Hget. reflexivity.
Qed.

Lemma canonical_idem (name : string) :
  Registry.canonical (Registry.canonical name) = Registry.canonical name.
Proof.
  unfold Registry.canonical at 1.
  rewrite (dict_mem_get _ _ (canonical_not_alias name)). reflexivity.
Qed.

(** The target of every alias is registered, with a backend module. *)
Lemma alias_target_owned (alias target : string) :
  Dict.get Registry._COMPATIBILITY alias = Some target ->
  exists module_, Dict.get Registry._ATTRIBUTES target = Some (Some module_).
Proof.
  intros H%dict_get_In.
  assert (forallb (fun kv : string * string =>
                     match Dict.get Registry._ATTRIBUTES (snd kv) with
                     | Some (Some _) => true
                     | _ => false
                     end) Registry._COMPATIBILITY = true) as Hall
    by (vm_compute; reflexivity).
  rewrite forallb_forall in Hall. specialize (Hall _ H). cbn [fst snd] in Hall.
  destruct (Dict.get Registry._ATTRIBUTES target) as [[m|]|]; try discriminate.
  exists m. reflexivity.
Qed.

(** ** The resolver *)

Section ResolverFacts.
Context (E : environment).

Lemma attach_fold_other (module : option backend_module) (n : string)
    (l : list string) (ns : gmap string value) :
  ~ In n l ->
  fold_left (Resolver.attach module) l ns !! n = ns !! n.
Proof.
  revert ns. induction l as [|x l IH]; intros ns Hn; simpl; [reflexivity|].
  rewrite IH by (intros ?; apply Hn; right; assumption).
  unfold Resolver.attach. destruct (Dict.mem _ x); [reflexivity|].
  apply lookup_insert_ne. intros ->. apply Hn. left. reflexivity.
Qed.

(** After the loop over the module's list, every name of the list that
    is not an alias is bound to the module's attribute or to its stub. *)
Lemma attach_fold_in (module : option backend_module) (n : string)
    (l : list string) (ns : gmap string value) :
  In n l -> Dict.mem Registry._COMPATIBILITY n = false ->
  fold_left (Resolver.attach module) l ns !! n
  = Some (Resolver.provided module n).
Proof.
  intros Hin Hmem. revert ns.
  induction l as [|x l IH]; intros ns; simpl; [destruct Hin|].
  destruct (in_dec string_dec n l) as [Hl | Hl].
  - apply IH, Hl.
  - destruct Hin as [-> | Hin]; [|contradiction].
    rewrite attach_fold_other by exact Hl.
    unfold Resolver.attach. rewrite Hmem. apply lookup_insert_eq.
Qed.

(** The resolver on a name whose owner is a backend module whose import
    returns or fails in a way the resolver absorbs. *)
Lemma getattr_owned (depth : nat) (st : state) (name_ module_ : string)
    (module : option backend_module) :
  Dict.get Registry._ATTRIBUTES (Registry.canonical name_)
    = Some (Some module_) ->
  Resolver.bind_backend E module_ = Return module ->
  exists l,
    Dict.get Registry._API (Some module_) = Some l /\
    Resolver.__getattr__ E (S depth) st name_
    = (Return (Resolver.provided module (Registry.canonical name_)),
       {| namespace :=
            Resolver.resolved_namespace module (Registry.names l) name_
              (namespace st);
          imported := imported st ++ [module_] |}).
Proof.
  intros Hown Hbind.
  destruct (attributes_in_api _ _ Hown) as (l & Hl & Hin).
  exists l. split; [exact Hl|].
  cbn [Resolver.__getattr__]. rewrite Hown, Hbind.
  rewrite Hl.
  cbn [namespace imported].
  rewrite (attach_fold_in module _ _ _ Hin (canonical_not_alias name_)).
  unfold Resolver.resolved_namespace.
  destruct (decide (Registry.canonical name_ = name_)); reflexivity.
Qed.

End ResolverFacts.

(** ** Stubs for the decode and encode functions *)

(** A backend that did not bind is the module [None] of the resolver;
    one that bound is the module itself. *)
Lemma never_bound_bind (E : environment) (module_ : string) :
  Resolver.never_bound E module_ ->
  Resolver.bind_backend E module_ = Return None.
Proof.
  intros (e & Himport & Hkind). unfold Resolver.bind_backend.
  rewrite Himport. destruct (is_ImportError e); [reflexivity|].
  destruct Hkind as [Hkind | [Hattr Hshared]]; [discriminate Hkind|].
  rewrite Hattr, Hshared. reflexivity.
Qed.

Lemma lacks_bind (E : environment) (module_ name : string) :
  Resolver.lacks E module_ name ->
  exists m, Resolver.bind_backend E module_ = Return (Some m)
            /\ default PyNone (m name) = PyNone.
Proof.
  intros (m & Himport & Hmissing). exists m. split; [|exact Hmissing].
  unfold Resolver.bind_backend. rewrite Himport. reflexivity.
Qed.

(** In both cases the resolver returns the stub of the canonical name. *)
Lemma getattr_unavailable (E : environment) (depth : nat) (st : state)
    (name_ module_ : string) :
  Dict.get Registry._ATTRIBUTES (Registry.canonical name_)
    = Some (Some module_) ->
  Resolver.never_bound E module_
  \/ Resolver.lacks E module_ (Registry.canonical name_) ->
  exists module st',
    Resolver.__getattr__ E (S depth) st name_
    = (Return (Stubs._stub (Registry.canonical name_) module), st')
    /\ (Resolver.never_bound E module_ -> module = None).
Proof.
  intros Hown [Hnever | Hlacks].
  - pose proof (never_bound_bind E module_ Hnever) as Hbind.
    destruct (getattr_owned E depth st _ _ _ Hown Hbind) as (l & _ & ->).
    exists None. eexists. split; [reflexivity|]. intros _. reflexivity.
  - destruct (lacks_bind E module_ _ Hlacks) as (m & Hbind & Hmissing).
    destruct (getattr_owned E depth st _ _ _ Hown Hbind) as (l & _ & ->).
    exists (Some m). eexists. split.
    + unfold Resolver.provided. rewrite Hmissing. reflexivity.
    + intros (e & Himport & _). destruct Hlacks as (m' & Himport' & _).
      rewrite Himport in Himport'. discriminate Himport'.
Qed.

(** C1, as the source has it.  A name is resolved under its canonical
    form, the name itself unless it is a compatibility alias.  When the
    canonical form ends in [_decode] or [_encode] and is owned by a
    backend module that did not bind (its import raises [ImportError],
    or [AttributeError] while [_shared] imports) or that bound without
    the attribute, the resolver returns, without raising, the stub
    [_stub] makes for the canonical name; the stub is a function, asking
    for its name does not raise, and calling it with any positional and
    keyword arguments raises [DelayedImportError] with the canonical
    name, which is the name asked for when that is not an alias. *)
Theorem stub_codec_function_deferred (E : environment) (depth : nat)
    (st : state) (name_ module_ : string) :
  PyStr.endswith (Registry.canonical name_) "_decode" = true
  \/ PyStr.endswith (Registry.canonical name_) "_encode" = true ->
  Dict.get Registry._ATTRIBUTES (Registry.canonical name_)
    = Some (Some module_) ->
  Resolver.never_bound E module_
  \/ Resolver.lacks E module_ (Registry.canonical name_) ->
  (Dict.get Registry._COMPATIBILITY name_ = None ->
   Registry.canonical name_ = name_)
  /\ exists stub module st',
       Resolver.__getattr__ E (S depth) st name_ = (Return stub, st')
       /\ stub = Stubs._stub (Registry.canonical name_) module
       /\ callable stub = true
       /\ (exists n, __name__ E stub = Some n)
       /\ forall args kw,
            call E stub args kw
            = Raise (DelayedImportError (Registry.canonical name_)).
Proof.
  intros Hsuffix Hown Hunavailable. split.
  - intros Hnone. unfold Registry.canonical. rewrite Hnone. reflexivity.
  - destruct (getattr_unavailable E depth st _ _ Hown Hunavailable)
      as (module & st' & -> & _).
    exists (Stubs._stub (Registry.canonical name_) module), module, st'.
    split; [reflexivity|]. split; [reflexivity|].
    destruct Hsuffix as [H | H].
    + rewrite (_stub_decode _ _ H). repeat split; eauto.
    + rewrite (_stub_encode _ _ H). repeat split; eauto.
Qed.

Lemma stub_codec_function_deferred_witness :
  (Dict.get Registry._COMPATIBILITY "jpeg2k_decode" = None ->
   Registry.canonical "jpeg2k_decode" = "jpeg2k_decode")
  /\ exists stub module st',
       Resolver.__getattr__ sample_backends 1 initial_state "jpeg2k_decode"
       = (Return stub, st')
       /\ stub = Stubs._stub (Registry.canonical "jpeg2k_decode") module
       /\ callable stub = true
       /\ (exists n, __name__ sample_backends stub = Some n)
       /\ forall args kw,
            call sample_backends stub args kw
            = Raise (DelayedImportError (Registry.canonical "jpeg2k_decode")).
Proof.
  apply (stub_codec_function_deferred sample_backends 0 initial_state
           "jpeg2k_decode" "jpeg2k").
  - left. reflexivity.
  - vm_compute. reflexivity.
  - left. exists (ImportError "No module named ._jpeg2k").
    split; [reflexivity|]. left. reflexivity.
Defined.

(** C1, as the specification has it, fails where the name is an alias:
    [zopfli_decode] is a registry name that ends in [_decode], its owner
    [zopfli] does not bind, and the stub the resolver returns for it
    raises [DelayedImportError] with the name [zlib_decode]; the backend
    the resolver tried is [zlib].  And where [zlib] binds while [zopfli]
    does not, the name resolves to the function of [zlib], not to a
    stub. *)
Lemma aliased_stub_names_its_target :
  PyStr.endswith "zopfli_decode" "_decode" = true
  /\ Dict.get Registry._ATTRIBUTES "zopfli_decode" = Some (Some "zopfli")
  /\ Resolver.never_bound no_backends "zopfli"
  /\ Resolver.never_bound zlib_bound "zopfli"
  /\ fst (Resolver.__getattr__ zlib_bound 1 initial_state "zopfli_decode")
     = Return (Native "zlib" "zlib_decode")
  /\ exists stub st',
       Resolver.__getattr__ no_backends 1 initial_state "zopfli_decode"
       = (Return stub, st')
       /\ imported st' = ["zlib"]
       /\ call no_backends stub [] [] = Raise (DelayedImportError "zlib_decode")
       /\ call no_backends stub [] []
          <> Raise (DelayedImportError "zopfli_decode").
Proof.
  split; [reflexivity|]. split; [vm_compute; reflexivity|].
  split; [|split; [|split; [vm_compute; reflexivity|]]].
  - exists (ImportError "No module named ._zopfli").
    split; [reflexivity|]. left. reflexivity.
  - exists (ImportError "No module named ._zopfli").
    split; [reflexivity|]. left. reflexivity.
  - exists (stub_decode "zlib_decode").
    exists (snd (Resolver.__getattr__ no_backends 1 initial_state
                   "zopfli_decode")).
    split; [vm_compute; reflexivity|]. split; [vm_compute; reflexivity|].
    split; [reflexivity|]. discriminate.
Qed.

(** A backend that binds without the attribute gives the same stub. *)
Example stub_of_missing_attribute :
  fst (Resolver.__getattr__
         {| import_module := fun _ => Return (fun _ => None);
            import_shared := Return tt;
            native_call := native_call no_backends;
            native_name := native_name no_backends;
            global_call := global_call no_backends;
            splitext_ext := splitext_ext no_backends;
            open_read := open_read no_backends;
            value_repr := value_repr no_backends;
            add_str_error := add_str_error no_backends |}
         1 initial_state "j2k_encode")
  = Return (stub_encode "jpeg2k_encode").
Proof. vm_compute. reflexivity. Qed.

(** ** Stubs for the version functions *)

(** C2.  The stub of [<codec>_version] returns ["<codec> n/a"] when the
    backend never bound, and the text ["<codec> unknow"] (not
    ["<codec> unknown"]) when it bound without a version function. *)
Theorem stub_version_text (E : environment) (codec : string)
    (m : backend_module) :
  call E (Stubs._stub (codec +:+ "_version") None) [] []
  = Return (PyStr (codec +:+ " n/a"))
  /\ call E (Stubs._stub (codec +:+ "_version") (Some m)) [] []
     = Return (PyStr (codec +:+ " unknow"))
  /\ codec +:+ " unknow" <> codec +:+ " unknown".
Proof.
  pose proof (endswith_app codec "_version") as H.
  pose proof (slice_end_app codec "_version") as Hs.
  change (String.length "_version") with 8 in Hs.
  rewrite !(_stub_version _ _ H). cbn [call].
  unfold Stubs.stub_version_body. rewrite Hs.
  repeat split. intros Heq. apply String.app_inj in Heq. discriminate Heq.
Qed.

Example stub_version_bound_zlib :
  call no_backends (Stubs._stub "zlib_version" (Some (fun _ => None))) [] []
  = Return (PyStr "zlib unknow").
Proof. reflexivity. Qed.

(** ** Stubs for the presence flags *)

(** C7, as the source has it.  A name in upper case that is owned by a
    backend module which did not bind: the resolver returns the class
    [STUB]; its truth value is computed without raising and is false;
    and reading an attribute that ordinary lookup does not find on the
    class raises [DelayedImportError] with the flag's name, whatever the
    class inherits.  Ordinary lookup comes first, so the attributes
    every class has, [__name__] and [__doc__] among them, are read
    without raising. *)
Theorem presence_flag_stub (E : environment) (depth : nat) (st : state)
    (name_ module_ : string) :
  PyStr.isupper (Registry.canonical name_) = true ->
  Dict.get Registry._ATTRIBUTES (Registry.canonical name_)
    = Some (Some module_) ->
  Resolver.never_bound E module_ ->
  exists cls,
    fst (Resolver.__getattr__ E (S depth) st name_) = Return (STUB cls)
    /\ Stubs._stub (Registry.canonical name_) None = STUB cls
    /\ Stubs.StubType_bool cls = Return false
    /\ (forall inherited attr,
          Stubs.ordinary_lookup inherited (STUB cls) attr = None ->
          Stubs.getattr_class inherited (STUB cls) attr
          = Raise (DelayedImportError (Registry.canonical name_)))
    /\ (forall inherited,
          Stubs.getattr_class inherited (STUB cls) "__name__"
          = Return (PyStr "STUB")).
Proof.
  intros Hupper Hown Hnever.
  pose proof (never_bound_bind E module_ Hnever) as Hbind.
  destruct (getattr_owned E depth st _ _ _ Hown Hbind) as (l & _ & ->).
  unfold Resolver.provided. rewrite (_stub_upper _ None Hupper).
  eexists. split; [reflexivity|]. split; [reflexivity|].
  split; [reflexivity|]. split; [|reflexivity].
  intros inherited attr Hordinary. unfold Stubs.getattr_class.
  rewrite Hordinary. reflexivity.
Qed.

Lemma presence_flag_stub_witness :
  exists cls,
    fst (Resolver.__getattr__ no_backends 1 initial_state "JPEG")
    = Return (STUB cls)
    /\ Stubs._stub (Registry.canonical "JPEG") None = STUB cls
    /\ Stubs.StubType_bool cls = Return false
    /\ (forall inherited attr,
          Stubs.ordinary_lookup inherited (STUB cls) attr = None ->
          Stubs.getattr_class inherited (STUB cls) attr
          = Raise (DelayedImportError (Registry.canonical "JPEG")))
    /\ (forall inherited,
          Stubs.getattr_class inherited (STUB cls) "__name__"
          = Return (PyStr "STUB")).
Proof.
  apply (presence_flag_stub no_backends 0 initial_state "JPEG" "jpeg8").
  - reflexivity.
  - vm_compute. reflexivity.
  - exists (ImportError "No module named ._jpeg8").
    split; [reflexivity|]. left. reflexivity.
Defined.

(** C7, as the specification has it, fails: on the stub of the flag
    [JPEG8] of a backend that did not bind, the attribute [__doc__],
    which is not its truth value, is read without raising. *)
Lemma presence_flag_attribute_found :
  PyStr.isupper "JPEG8" = true
  /\ Resolver.never_bound no_backends "jpeg8"
  /\ fst (Resolver.__getattr__ no_backends 1 initial_state "JPEG8")
     = Return (Stubs._stub "JPEG8" None)
  /\ Stubs.getattr_class (fun _ => None) (Stubs._stub "JPEG8" None) "__doc__"
     = Return (PyStr "Stub for imagecodecs.CODEC constants.")
  /\ forall name,
       Stubs.getattr_class (fun _ => None) (Stubs._stub "JPEG8" None)
                           "__doc__"
       <> Raise (DelayedImportError name).
Proof.
  split; [reflexivity|]. split.
  - exists (ImportError "No module named ._jpeg8").
    split; [reflexivity|]. left. reflexivity.
  - split; [vm_compute; reflexivity|]. split; [reflexivity|].
    intros name. discriminate.
Qed.

(** The same flag when the backend bound without it: a class [STUB]
    whose metaclass has no [__bool__], hence true. *)
Example presence_flag_bound :
  Stubs._stub "PNG" (Some (fun _ => None))
  = STUB {| stub_name := "PNG"; defines_bool := false |}
  /\ Stubs.StubType_bool {| stub_name := "PNG"; defines_bool := false |}
     = Return true.
Proof. split; reflexivity. Qed.

(** ** Names the registry does not know, and module-less attributes *)

(** C8.  A name whose canonical form is not in [_ATTRIBUTES]: the
    resolver raises [AttributeError] at once, without importing anything
    and without touching the namespace.  Such a name is not an alias, so
    the message names the attribute as it was asked for.  The error is
    not the deferred [DelayedImportError], nor any [ImportError]. *)
Theorem unknown_attribute (E : environment) (depth : nat) (st : state)
    (name : string) :
  Dict.get Registry._ATTRIBUTES (Registry.canonical name) = None ->
  Registry.canonical name = name
  /\ Resolver.__getattr__ E (S depth) st name
     = (Raise (AttributeError ("module 'imagecodecs' has no attribute "
                                 +:+ PyStr.repr name)), st)
  /\ is_ImportError (AttributeError ("module 'imagecodecs' has no attribute "
                                       +:+ PyStr.repr name)) = false
  /\ forall stub_name,
       AttributeError ("module 'imagecodecs' has no attribute "
                         +:+ PyStr.repr name)
       <> DelayedImportError stub_name.
Proof.
  intros Hnone.
  assert (Registry.canonical name = name) as Hcan.
  { destruct (Dict.get Registry._COMPATIBILITY name) as [target|] eqn:Halias.
    - destruct (alias_target_owned _ _ Halias) as [m Hm].
      assert (Registry.canonical name = target) as Htarget
        by (unfold Registry.canonical; rewrite Halias; reflexivity).
      rewrite Htarget, Hm in Hnone. discriminate Hnone.
    - unfold Registry.canonical. rewrite Halias. reflexivity. }
  split; [exact Hcan|].
  split; [|split; [reflexivity | discriminate]].
  cbn [Resolver.__getattr__]. rewrite Hnone, Hcan. reflexivity.
Qed.

Lemma unknown_attribute_witness :
  Registry.canonical "tga_decode" = "tga_decode"
  /\ Resolver.__getattr__ sample_backends 1 initial_state "tga_decode"
     = (Raise (AttributeError ("module 'imagecodecs' has no attribute "
                                 +:+ PyStr.repr "tga_decode")),
        initial_state)
  /\ is_ImportError (AttributeError ("module 'imagecodecs' has no attribute "
                                       +:+ PyStr.repr "tga_decode")) = false
  /\ forall stub_name,
       AttributeError ("module 'imagecodecs' has no attribute "
                         +:+ PyStr.repr "tga_decode")
       <> DelayedImportError stub_name.
Proof.
  apply (unknown_attribute sample_backends 0 initial_state "tga_decode").
  vm_compute. reflexivity.
Defined.

(** C9, as the source has it.  A name whose canonical form is registered
    with the owner [None]: the resolver returns [None], imports nothing
    and leaves the namespace as it is.  The value the source file defines
    for the name is what ordinary attribute access finds in the
    namespace, before the resolver is ever consulted. *)
Theorem module_less_attribute (E : environment) (depth : nat) (st : state)
    (name_ : string) :
  Dict.get Registry._ATTRIBUTES (Registry.canonical name_) = Some None ->
  Resolver.__getattr__ E (S depth) st name_ = (Return PyNone, st)
  /\ forall v, namespace st !! name_ = Some v ->
               Resolver.getattr E depth st name_ = (Return v, st).
Proof.
  intros Hown. split.
  - cbn [Resolver.__getattr__]. rewrite Hown. reflexivity.
  - intros v Hv. unfold Resolver.getattr. rewrite Hv. reflexivity.
Qed.

Lemma module_less_attribute_witness :
  Resolver.__getattr__ sample_backends 1 initial_state "numpy_decode"
  = (Return PyNone, initial_state)
  /\ forall v, namespace initial_state !! "numpy_decode" = Some v ->
               Resolver.getattr sample_backends 0 initial_state "numpy_decode"
               = (Return v, initial_state).
Proof.
  apply (module_less_attribute sample_backends 0 initial_state "numpy_decode").
  vm_compute. reflexivity.
Defined.

(** C9, as the specification has it, fails: [imread] is registered with
    the owner [None] and the source file binds it to the function, yet
    the resolver does not return that function. *)
Lemma module_less_attribute_not_its_value :
  Dict.get Registry._ATTRIBUTES "imread" = Some None
  /\ namespace initial_state !! "imread" = Some (Global "imread")
  /\ fst (Resolver.__getattr__ no_backends 1 initial_state "imread")
     <> Return (Global "imread").
Proof.
  split; [vm_compute; reflexivity|].
  split; [vm_compute; reflexivity|].
  vm_compute. discriminate.
Qed.

(** A module-less name that is also an alias is resolved as its target:
    [jpeg_check] has the owner [None] in [_ATTRIBUTES], and resolving it
    imports the backend of [jpeg8_check]. *)
Example module_less_alias_binds :
  Dict.get Registry._ATTRIBUTES "jpeg_check" = Some None
  /\ imported (snd (Resolver.__getattr__ no_backends 1 initial_state
                      "jpeg_check")) = ["jpeg8"]
  /\ fst (Resolver.__getattr__ no_backends 1 initial_state "jpeg_check")
     = Return stub_check.
Proof. repeat split; vm_compute; reflexivity. Qed.

(** ** The codec [none] *)

(** C10.  [none_decode(none_encode(X))] is [X] for every value [X] and
    whatever further arguments either call receives; both functions
    return their first argument itself, so an array keeps its element
    type, its shape and its content. *)
Theorem none_roundtrip (E : environment) (X : value) (args args' : list value)
    (kw kw' : kwargs) :
  none_decode (none_encode X args kw) args' kw' = X
  /\ call E (Global "none_encode") (X :: args) kw = Return X
  /\ call E (Global "none_decode") (X :: args') kw' = Return X
  /\ forall dtype shape buffer,
       X = ndarray dtype shape buffer ->
       bind (call E (Global "none_encode") (X :: args) kw)
            (fun Y => call E (Global "none_decode") (Y :: args') kw')
       = Return (ndarray dtype shape buffer).
Proof.
  repeat split. intros dtype shape buffer ->. reflexivity.
Qed.

Lemma none_roundtrip_witness :
  none_decode (none_encode (ndarray "uint8" [2; 3] "abcdef") [] []) [] []
  = ndarray "uint8" [2; 3] "abcdef"
  /\ call no_backends (Global "none_encode")
          [ndarray "uint8" [2; 3] "abcdef"] []
     = Return (ndarray "uint8" [2; 3] "abcdef")
  /\ call no_backends (Global "none_decode")
          [ndarray "uint8" [2; 3] "abcdef"] []
     = Return (ndarray "uint8" [2; 3] "abcdef")
  /\ forall dtype shape buffer,
       ndarray "uint8" [2; 3] "abcdef" = ndarray dtype shape buffer ->
       bind (call no_backends (Global "none_encode")
                  [ndarray "uint8" [2; 3] "abcdef"] [])
            (fun Y => call no_backends (Global "none_decode") [Y] [])
       = Return (ndarray dtype shape buffer).
Proof.
  apply (none_roundtrip no_backends (ndarray "uint8" [2; 3] "abcdef")
           [] [] [] []).
Defined.

(** ** Compatibility aliases *)

(** The resolver on a name that is an alias runs as on the canonical
    name, and binds the alias at the end. *)
Lemma getattr_alias (E : environment) (depth : nat) (st : state)
    (alias module_ : string) :
  Registry.canonical alias <> alias ->
  Dict.get Registry._ATTRIBUTES (Registry.canonical alias)
    = Some (Some module_) ->
  Resolver.__getattr__ E depth st alias
  = match Resolver.__getattr__ E depth st (Registry.canonical alias) with
    | (Return v, st') =>
        (Return v, {| namespace := <[alias := v]> (namespace st');
                      imported := imported st' |})
    | r => r
    end.
Proof.
  intros Hne Hown. destruct depth as [|depth]; [reflexivity|].
  cbn [Resolver.__getattr__]. rewrite canonical_idem, Hown.
  destruct (Resolver.bind_backend E module_) as [module|e]; [|reflexivity].
  destruct (Dict.get Registry._API (Some module_)) as [l|]; [|reflexivity].
  cbn [namespace imported].
  destruct (match fold_left (Resolver.attach module) (Registry.names l)
                    (namespace st) !! Registry.canonical alias with
            | Some v => _
            | None => _
            end) as [[attr|e] st'].
  - destruct (decide (Registry.canonical alias = alias)); [contradiction|].
    destruct (decide (Registry.canonical alias = Registry.canonical alias));
      [reflexivity | contradiction].
  - reflexivity.
Qed.

(** C6, as the source has it.  Every key of [_COMPATIBILITY] is in the
    list [__dir__()] returns, which is made of the registry names and of
    the alias names; resolving an alias gives the value resolving its
    canonical target gives, and binds the alias to that value. *)
Theorem alias_listed_and_resolved (alias target : string) :
  Dict.get Registry._COMPATIBILITY alias = Some target ->
  In alias Registry.__dir__
  /\ forall (E : environment) (depth : nat) (st : state),
       fst (Resolver.__getattr__ E depth st alias)
       = fst (Resolver.__getattr__ E depth st target)
       /\ forall v,
            fst (Resolver.__getattr__ E depth st target) = Return v ->
            namespace (snd (Resolver.__getattr__ E depth st alias))
            = <[alias := v]>
                (namespace (snd (Resolver.__getattr__ E depth st target))).
Proof.
  intros Halias. split.
  - assert (forallb (fun kv : string * string =>
                       existsb (String.eqb (fst kv)) Registry.__dir__)
                    Registry._COMPATIBILITY = true) as Hall
      by (vm_compute; reflexivity).
    rewrite forallb_forall in Hall.
    specialize (Hall _ (dict_get_In _ _ _ Halias)). cbn [fst] in Hall.
    apply existsb_exists in Hall as (x & Hx & ->%eqb_true_eq). exact Hx.
  - intros E depth st.
    assert (Registry.canonical alias = target) as Hcan
      by (unfold Registry.canonical; rewrite Halias; reflexivity).
    destruct (alias_target_owned _ _ Halias) as [module_ Hown].
    assert (Registry.canonical alias <> alias) as Hne.
    { intros Heq. pose proof (canonical_not_alias alias) as Hmem.
      rewrite Heq in Hmem. unfold Dict.mem in Hmem. rewrite Halias in Hmem.
      discriminate. }
    rewrite <- Hcan in Hown.
    rewrite (getattr_alias E depth st alias module_ Hne Hown), Hcan.
    destruct (Resolver.__getattr__ E depth st target) as [[v|e] st'];
      cbn [fst snd namespace]; split; try reflexivity.
    + intros v' [= ->]. reflexivity.
    + intros v' [=].
Qed.

Lemma alias_listed_and_resolved_witness :
  In "j2k_decode" Registry.__dir__
  /\ forall (E : environment) (depth : nat) (st : state),
       fst (Resolver.__getattr__ E depth st "j2k_decode")
       = fst (Resolver.__getattr__ E depth st "jpeg2k_decode")
       /\ forall v,
            fst (Resolver.__getattr__ E depth st "jpeg2k_decode") = Return v ->
            namespace (snd (Resolver.__getattr__ E depth st "j2k_decode"))
            = <["j2k_decode" := v]>
                (namespace (snd (Resolver.__getattr__ E depth st
                                   "jpeg2k_decode"))).
Proof.
  apply (alias_listed_and_resolved "j2k_decode" "jpeg2k_decode").
  reflexivity.
Defined.

(** C6, as the specification has it, fails: the alias [j2k_encode] is a
    key of [_COMPATIBILITY] and is in the directory listing. *)
Lemma alias_in_directory_listing :
  Dict.get Registry._COMPATIBILITY "j2k_encode" = Some "jpeg2k_encode"
  /\ In "j2k_encode" Registry.__dir__.
Proof.
  split; [reflexivity|].
  assert (existsb (String.eqb "j2k_encode") Registry.__dir__ = true) as H
    by (vm_compute; reflexivity).
  apply existsb_exists in H as (x & Hx & ->%eqb_true_eq). exact Hx.
Qed.

(** Five aliases are registry names as well, and so are listed twice. *)
Example alias_listed_twice :
  List.filter (String.eqb "zopfli_decode") Registry.__dir__
  = ["zopfli_decode"; "zopfli_decode"].
Proof. vm_compute. reflexivity. Qed.

(** ** The candidates of [imread] *)

(** C3, as the source has it.  With a codec hint the candidates are the
    hint itself, one name or callable as a list of one: a name is put in
    lower case and, when it is a key of the extension table, replaced by
    the codec of that extension; a callable is kept.  The hint [jpeg]
    gives the single candidate [jpeg].  The four JPEG variants, in the
    order jpeg8, jpeg12, jpegsof3, ljpeg, are what [imread] tries first
    when no hint is given and the extension of the file name belongs to
    the codec [jpeg]; the other imaging codecs follow. *)
Theorem candidates_of_hint (E : environment) (f : fileobj) :
  (forall c, Imread.candidates E f (Some (One c)) = [Imread.hinted c])
  /\ (forall l,
        Imread.candidates E f (Some (Several l)) = List.map Imread.hinted l)
  /\ (forall s,
        Imread.hinted (PyStr s)
        = PyStr (default (PyStr.lower s)
                         (Dict.get Imread._imcodecs (PyStr.lower s))))
  /\ (forall c, callable c = true -> Imread.hinted c = c)
  /\ Imread.candidates E f (Some (One (PyStr "jpeg"))) = [PyStr "jpeg"]
  /\ Imread.candidates E f (Some (Several [PyStr "jpeg"])) = [PyStr "jpeg"]
  /\ (forall p,
        Dict.get Imread._imcodecs (PyStr.lower (splitext_ext E p))
        = Some "jpeg" ->
        Imread.candidates E (Path p) None
        = List.map PyStr
            (["jpeg8"; "jpeg12"; "jpegsof3"; "ljpeg"]
             ++ ["tiff"; "apng"; "png"; "gif"; "webp"; "jpeg2k"; "jpegls";
                 "jpegxr"; "jpegxl"; "avif"; "heif"; "zfp"; "lerc"; "rgbe";
                 "numpy"])).
Proof.
  repeat split.
  - intros c Hc. destruct c; (discriminate Hc || reflexivity).
  - intros p Hext. unfold Imread.candidates, Imread.extension.
    rewrite Hext. vm_compute. reflexivity.
Qed.

Lemma candidates_of_hint_witness :
  (forall c, Imread.candidates sample_backends (Path "scan.jpg")
                               (Some (One c)) = [Imread.hinted c])
  /\ (forall l,
        Imread.candidates sample_backends (Path "scan.jpg") (Some (Several l))
        = List.map Imread.hinted l)
  /\ (forall s,
        Imread.hinted (PyStr s)
        = PyStr (default (PyStr.lower s)
                         (Dict.get Imread._imcodecs (PyStr.lower s))))
  /\ (forall c, callable c = true -> Imread.hinted c = c)
  /\ Imread.candidates sample_backends (Path "scan.jpg")
                       (Some (One (PyStr "jpeg"))) = [PyStr "jpeg"]
  /\ Imread.candidates sample_backends (Path "scan.jpg")
                       (Some (Several [PyStr "jpeg"])) = [PyStr "jpeg"]
  /\ (forall p,
        Dict.get Imread._imcodecs
                 (PyStr.lower (splitext_ext sample_backends p))
        = Some "jpeg" ->
        Imread.candidates sample_backends (Path p) None
        = List.map PyStr
            (["jpeg8"; "jpeg12"; "jpegsof3"; "ljpeg"]
             ++ ["tiff"; "apng"; "png"; "gif"; "webp"; "jpeg2k"; "jpegls";
                 "jpegxr"; "jpegxl"; "avif"; "heif"; "zfp"; "lerc"; "rgbe";
                 "numpy"])).
Proof.
  apply (candidates_of_hint sample_backends (Path "scan.jpg")).
Defined.

Example candidates_of_jpg_file :
  Imread.candidates sample_backends (Path "scan.jpg") None
  = List.map PyStr
      ["jpeg8"; "jpeg12"; "jpegsof3"; "ljpeg"; "tiff"; "apng"; "png"; "gif";
       "webp"; "jpeg2k"; "jpegls"; "jpegxr"; "jpegxl"; "avif"; "heif"; "zfp";
       "lerc"; "rgbe"; "numpy"].
Proof. vm_compute. reflexivity. Qed.

(** C3, as the specification has it, fails: with the hint [jpeg], alone
    or in a list, the candidates are not the four JPEG variants. *)
Lemma jpeg_hint_not_expanded :
  Imread.candidates sample_backends (Data (PyBytes "abc"))
                    (Some (One (PyStr "jpeg")))
  <> List.map PyStr ["jpeg8"; "jpeg12"; "jpegsof3"; "ljpeg"]
  /\ Imread.candidates sample_backends (Data (PyBytes "abc"))
                       (Some (Several [PyStr "jpeg"]))
     <> List.map PyStr ["jpeg8"; "jpeg12"; "jpegsof3"; "ljpeg"].
Proof. split; vm_compute; discriminate. Qed.

(** Nor is a hint used verbatim: names are put in lower case, and the
    hint [ljpeg], an extension of the codec [jpeg], becomes [jpeg]. *)
Example hint_ljpeg :
  Imread.candidates sample_backends (Data (PyBytes "abc"))
                    (Some (Several [PyStr "LJPEG"; PyStr "Png"]))
  = [PyStr "jpeg"; PyStr "png"].
Proof. vm_compute. reflexivity. Qed.

(** ** The trial loop of [imread] *)

Section TrialLoop.
Context (E : environment) (depth : nat) (data : value) (kw : kwargs).



End TrialLoop.

(** C4.  The loop does not keep to the rule that a candidate's result
    is returned only when the candidate succeeded.  On the bytes [abc]
    with the candidates [none] and [tga], the decode function of [none]
    returns the bytes, which have no element type: the loop records a
    diagnostic for [none] as for a failure and goes on to [tga], which
    fails too, yet [image] still holds the bytes and [imread] returns
    them.  With the candidates [none] and [zlib] and no backend, the
    function returned with the bytes is the stub of [zlib_decode], which
    never returned them.  And when the decode function that fails is a
    callable without a [__name__], no diagnostic is recorded: the
    handler itself raises, and the [AttributeError] leaves [imread]. *)
Theorem trial_keeps_untyped_result :
  (exists line l,
      Imread.trials no_backends 1 (PyBytes "abc") []
                    (Imread.start initial_state) [PyStr "none"; PyStr "tga"]
      = Imread.Continue l
      /\ Imread.exceptions l
         = [line; "'TGA': module 'imagecodecs' has no attribute 'tga_decode'"]
      /\ String.prefix "NONE_DECODE: " line = true
      /\ Imread.image l = PyBytes "abc")
  /\ fst (Imread.imread no_backends 1 initial_state (Data (PyBytes "abc"))
            (Some (Several [PyStr "none"; PyStr "tga"])) true false [])
     = Return (Imread.Image (PyBytes "abc"))
  /\ fst (Imread.imread no_backends 1 initial_state (Data (PyBytes "abc"))
            (Some (Several [PyStr "none"; PyStr "zlib"])) true true [])
     = Return (Imread.ImageAndCodec (PyBytes "abc")
                                    (Some (stub_decode "zlib_decode")))
  /\ __name__ no_backends (Native "functools" "partial") = None
  /\ exists msg,
       fst (Imread.imread no_backends 1 initial_state
              (Data (PyBytes "abc"))
              (Some (One (Native "functools" "partial"))) true false [])
       = Raise (AttributeError msg).
Proof.
  split.
  - eexists. eexists. split; [vm_compute; reflexivity|].
    cbn [Imread.exceptions Imread.image].
    split; [reflexivity|]. split; reflexivity.
  - split; [vm_compute; reflexivity|]. split; [vm_compute; reflexivity|].
    split; [reflexivity|]. eexists. vm_compute. reflexivity.
Qed.

(** X21.  What one turn of the loop does, for a candidate whose decode
    function is [func_].  The loop stops there, and [imread] returns the
    result, when the call returns a value with an element type other
    than [object]; nothing else makes this turn stop the loop.  When the
    call raises [DelayedImportError], the loop goes on with the next
    candidate and [exceptions] as it was.  When the call raises anything
    else, returns an array of element type [object], or returns a value
    without an element type, and the function has a [__name__], the loop
    goes on with the next candidate and one more line in [exceptions],
    the name in upper case and the message; [image] is reset to [None]
    for the [object] array but keeps the value without element type.
    When the function has no [__name__], such a failure ends the loop
    with the [AttributeError] of the handler. *)
Theorem loop_turn_outcome (E : environment) (depth : nat) (data : value)
    (kw : kwargs) (l : Imread.loop) (codec func_ : value) (st : state)
    (codecs : list value) :
  Imread.resolve E depth (Imread.resolver l) codec = (Return func_, st) ->
  (forall l',
      Imread.trial E depth data kw l codec = Imread.Break l' <->
      exists image_ dtype,
        call E func_ [data] kw = Return image_
        /\ Imread.dtype_of image_ = Return dtype
        /\ dtype <> "object"
        /\ l' = {| Imread.exceptions := Imread.exceptions l;
                   Imread.image := image_;
                   Imread.func := Some func_;
                   Imread.resolver := st |})
  /\ (forall l',
        Imread.trial E depth data kw l codec = Imread.Break l' ->
        Imread.trials E depth data kw l (codec :: codecs) = Imread.Break l'
        /\ Imread.finish false
             (Imread.trials E depth data kw l (codec :: codecs))
           = (Return (Imread.Image (Imread.image l')), st)
        /\ Imread.finish true
             (Imread.trials E depth data kw l (codec :: codecs))
           = (Return (Imread.ImageAndCodec (Imread.image l') (Some func_)),
              st))
  /\ (forall name,
        call E func_ [data] kw = Raise (DelayedImportError name) ->
        Imread.trials E depth data kw l (codec :: codecs)
        = Imread.trials E depth data kw
            {| Imread.exceptions := Imread.exceptions l;
               Imread.image := Imread.image l;
               Imread.func := Some func_;
               Imread.resolver := st |} codecs)
  /\ (forall exc name,
        call E func_ [data] kw = Raise exc ->
        is_DelayedImportError exc = false ->
        __name__ E func_ = Some name ->
        Imread.trials E depth data kw l (codec :: codecs)
        = Imread.trials E depth data kw
            {| Imread.exceptions :=
                 Imread.exceptions l ++ [Imread.diagnostic name exc];
               Imread.image := Imread.image l;
               Imread.func := Some func_;
               Imread.resolver := st |} codecs)
  /\ (forall shape buffer name,
        call E func_ [data] kw = Return (ndarray "object" shape buffer) ->
        __name__ E func_ = Some name ->
        Imread.trials E depth data kw l (codec :: codecs)
        = Imread.trials E depth data kw
            {| Imread.exceptions :=
                 Imread.exceptions l
                   ++ [Imread.diagnostic name (ValueError "failed")];
               Imread.image := PyNone;
               Imread.func := Some func_;
               Imread.resolver := st |} codecs)
  /\ (forall image_ exc name,
        call E func_ [data] kw = Return image_ ->
        Imread.dtype_of image_ = Raise exc ->
        __name__ E func_ = Some name ->
        Imread.trials E depth data kw l (codec :: codecs)
        = Imread.trials E depth data kw
            {| Imread.exceptions :=
                 Imread.exceptions l ++ [Imread.diagnostic name exc];
               Imread.image := image_;
               Imread.func := Some func_;
               Imread.resolver := st |} codecs)
  /\ (__name__ E func_ = None ->
      (exists exc, call E func_ [data] kw = Raise exc
                   /\ is_DelayedImportError exc = false)
      \/ (exists image_,
             call E func_ [data] kw = Return image_
             /\ (Imread.dtype_of image_ = Return "object"
                 \/ exists exc, Imread.dtype_of image_ = Raise exc)) ->
      exists msg,
        Imread.trials E depth data kw l (codec :: codecs)
        = Imread.Escape (AttributeError msg) st).
Proof.
  intros Hres.
  assert (forall l',
      Imread.trial E depth data kw l codec = Imread.Break l' <->
      exists image_ dtype,
        call E func_ [data] kw = Return image_
        /\ Imread.dtype_of image_ = Return dtype
        /\ dtype <> "object"
        /\ l' = {| Imread.exceptions := Imread.exceptions l;
                   Imread.image := image_;
                   Imread.func := Some func_;
                   Imread.resolver := st |}) as Hbreak.
  { intros l'. unfold Imread.trial. rewrite Hres. split.
    - destruct (call E func_ [data] kw) as [image_|exc].
      + destruct (Imread.dtype_of image_) as [dtype|exc] eqn:Hdtype.
        * destruct (String.eqb dtype "object") eqn:Hobj.
          -- unfold Imread.record_failure.
             destruct (__name__ E func_); discriminate.
          -- intros [= <-]. exists image_, dtype.
             split; [reflexivity|]. split; [exact Hdtype|].
             split; [|reflexivity]. intros ->. discriminate Hobj.
        * unfold Imread.record_failure.
          destruct (__name__ E func_); discriminate.
      + destruct (is_DelayedImportError exc); [discriminate|].
        unfold Imread.record_failure.
        destruct (__name__ E func_); discriminate.
    - intros (image_ & dtype & -> & -> & Hne & ->).
      destruct (String.eqb dtype "object") eqn:Hobj; [|reflexivity].
      apply eqb_true_eq in Hobj. contradiction. }
  split; [exact Hbreak|].
  split; [|split; [|split; [|split; [|split]]]].
  - intros l' Htrial. cbn [Imread.trials]. rewrite Htrial.
    apply Hbreak in Htrial as (image_ & dtype & _ & Hdtype & _ & ->).
    cbn [Imread.finish Imread.image Imread.func Imread.resolver].
    destruct image_; try discriminate Hdtype. repeat split.
  - intros name Hcall. cbn [Imread.trials]. unfold Imread.trial.
    rewrite Hres, Hcall. reflexivity.
  - intros exc name Hcall Hexc Hname. cbn [Imread.trials].
    unfold Imread.trial. rewrite Hres, Hcall, Hexc.
    unfold Imread.record_failure. rewrite Hname. reflexivity.
  - intros shape buffer name Hcall Hname. cbn [Imread.trials].
    unfold Imread.trial. rewrite Hres, Hcall. cbn [Imread.dtype_of].
    unfold Imread.record_failure. rewrite Hname. reflexivity.
  - intros image_ exc name Hcall Hdtype Hname. cbn [Imread.trials].
    unfold Imread.trial. rewrite Hres, Hcall, Hdtype.
    unfold Imread.record_failure. rewrite Hname. reflexivity.
  - intros Hname Hfails. cbn [Imread.trials]. unfold Imread.trial.
    rewrite Hres.
    destruct Hfails as [(exc & -> & ->)
                       | (image_ & -> & [-> | [exc ->]])];
      unfold Imread.record_failure; rewrite ?Hname; cbn [String.eqb];
      eexists; reflexivity.
Qed.

Lemma loop_turn_outcome_witness :
  Imread.trials sample_backends 1 (PyBytes "PNG data") []
                (Imread.start initial_state) [PyStr "zlib"; PyStr "png"]
  = Imread.trials sample_backends 1 (PyBytes "PNG data") []
      {| Imread.exceptions := [];
         Imread.image := PyNone;
         Imread.func := Some (stub_decode "zlib_decode");
         Imread.resolver :=
           snd (Imread.resolve sample_backends 1 initial_state (PyStr "zlib"))
      |} [PyStr "png"].
Proof.
  assert (Imread.resolve sample_backends 1
            (Imread.resolver (Imread.start initial_state)) (PyStr "zlib")
          = (Return (stub_decode "zlib_decode"),
             snd (Imread.resolve sample_backends 1 initial_state
                    (PyStr "zlib")))) as Hres
    by (vm_compute; reflexivity).
  apply (proj1 (proj2 (proj2 (loop_turn_outcome sample_backends 1
                                 (PyBytes "PNG data") []
                                 (Imread.start initial_state) (PyStr "zlib")
                                 (stub_decode "zlib_decode") _
                                 [PyStr "png"] Hres)))
           "zlib_decode").
  reflexivity.
Defined.

(** An array of element type [object] is a failure with the message
    [failed]. *)
Example trial_object_array :
  fst (Imread.imread sample_backends 1 initial_state
         (Data (PyBytes "OBJ data")) (Some (One (PyStr "png")))
         true false [])
  = Raise (ValueError "PNG_DECODE: failed").
Proof. vm_compute. reflexivity. Qed.

(** ** Exhaustion *)








(** A candidate whose decoder returns a value without an element type is
    recorded as a failure, yet the value stays in [image] and is what
    [imread] returns when the loop ends: the codec [none] on bytes. *)
Example none_candidate_on_bytes :
  fst (Imread.imread no_backends 1 initial_state (Data (PyBytes "abc"))
         (Some (One (PyStr "none"))) true false [])
  = Return (Imread.Image (PyBytes "abc")).
Proof. vm_compute. reflexivity. Qed.

(** * Further properties of the dispatch machinery *)

(** ** The registry *)

(** X1.  The owner [_ATTRIBUTES] records for a name is the one module
    whose list in [_API] holds the name: no attribute is listed under two
    modules, and none is listed without being registered. *)
Theorem attribute_owner_unique (name : string) (module : option string) :
  Dict.get Registry._ATTRIBUTES name = Some module
  <-> exists l, Dict.get Registry._API module = Some l
                /\ In name (Registry.names l).
Proof.
  split.
  - intros H%dict_get_In.
    assert (forallb
              (fun am : string * option string =>
                 match Dict.get Registry._API (snd am) with
                 | Some l => existsb (String.eqb (fst am)) (Registry.names l)
                 | None => false
                 end) Registry._ATTRIBUTES = true) as Hall
      by (vm_compute; reflexivity).
    rewrite forallb_forall in Hall. specialize (Hall _ H).
    cbn [fst snd] in Hall.
    destruct (Dict.get Registry._API module) as [l|]; [|discriminate Hall].
    exists l. split; [reflexivity|].
    apply existsb_exists in Hall as (x & Hx & ->%eqb_true_eq). exact Hx.
  - intros (l & Hl%dict_get_In & Hin).
    assert (forallb
              (fun ml : option string * list api_entry =>
                 forallb (fun n => bool_decide
                                     (Dict.get Registry._ATTRIBUTES n
                                      = Some (fst ml)))
                         (Registry.names (snd ml)))
              Registry._API = true) as Hall
      by (vm_compute; reflexivity).
    rewrite forallb_forall in Hall. specialize (Hall _ Hl).
    cbn [fst snd] in Hall. rewrite forallb_forall in Hall.
    specialize (Hall _ Hin). apply bool_decide_eq_true in Hall. exact Hall.
Qed.

(** ** The resolver *)

Lemma non_alias_canonical (name : string) :
  Dict.mem Registry._COMPATIBILITY name = false ->
  Registry.canonical name = name.
Proof.
  intros H. unfold Registry.canonical.
  rewrite (dict_mem_get _ _ H). reflexivity.
Qed.

Lemma not_canonical_is_alias (name : string) :
  Registry.canonical name <> name ->
  Dict.mem Registry._COMPATIBILITY name = true.
Proof.
  intros H. destruct (Dict.mem Registry._COMPATIBILITY name) eqn:Hmem;
    [reflexivity|].
  exfalso. apply H, non_alias_canonical, Hmem.
Qed.

Lemma attach_fold_alias (module : option backend_module) (n : string)
    (l : list string) (ns : gmap string value) :
  Dict.mem Registry._COMPATIBILITY n = true ->
  fold_left (Resolver.attach module) l ns !! n = ns !! n.
Proof.
  intros Hmem. revert ns. induction l as [|x l IH]; intros ns; simpl;
    [reflexivity|].
  rewrite IH. unfold Resolver.attach.
  destruct (Dict.mem Registry._COMPATIBILITY x) eqn:Hx; [reflexivity|].
  apply lookup_insert_ne. intros ->. rewrite Hmem in Hx. discriminate Hx.
Qed.

(** The namespace after a resolution, name by name. *)
Lemma resolved_namespace_lookup (module : option backend_module)
    (l : list string) (name_ n : string) (ns : gmap string value) :
  Resolver.resolved_namespace module l name_ ns !! n
  = if decide (n = name_ /\ Registry.canonical name_ <> name_)
    then Some (Resolver.provided module (Registry.canonical name_))
    else if decide (n ∈ l /\ Dict.mem Registry._COMPATIBILITY n = false)
         then Some (Resolver.provided module n)
         else ns !! n.
Proof.
  assert (fold_left (Resolver.attach module) l ns !! n
          = if decide (n ∈ l /\ Dict.mem Registry._COMPATIBILITY n = false)
            then Some (Resolver.provided module n)
            else ns !! n) as Hfold.
  { destruct (decide _) as [[Hin%list_elem_of_In Hmem] | Hno].
    - apply attach_fold_in; assumption.
    - destruct (Dict.mem Registry._COMPATIBILITY n) eqn:Hmem.
      + apply attach_fold_alias, Hmem.
      + apply attach_fold_other. intros Hin%list_elem_of_In.
        apply Hno. split; [exact Hin | reflexivity]. }
  unfold Resolver.resolved_namespace.
  destruct (decide (Registry.canonical name_ = name_)) as [Heq | Hne].
  - destruct (decide (n = name_ /\ _)) as [[_ Hc] | _]; [contradiction|].
    exact Hfold.
  - destruct (decide (n = name_ /\ _)) as [[-> _] | Hno].
    + apply lookup_insert_eq.
    + rewrite lookup_insert_ne; [exact Hfold|].
      intros ->. apply Hno. split; [reflexivity | exact Hne].
Qed.

(** X2.  The resolver never calls itself: the name it looks up at the
    end is always in the namespace by then, so the outcome does not
    depend on how much recursion the interpreter allows. *)
Theorem resolver_never_reenters (E : environment) (depth : nat) (st : state)
    (name : string) :
  Resolver.__getattr__ E (S depth) st name = Resolver.__getattr__ E 1 st name.
Proof.
  destruct (Dict.get Registry._ATTRIBUTES (Registry.canonical name))
    as [[module_|]|] eqn:Hown.
  - destruct (Resolver.bind_backend E module_) as [module|e] eqn:Hbind.
    + destruct (getattr_owned E depth st _ _ _ Hown Hbind) as (l & Hl & ->).
      destruct (getattr_owned E 0 st _ _ _ Hown Hbind) as (l' & Hl' & ->).
      rewrite Hl in Hl'. injection Hl' as <-. reflexivity.
    + cbn [Resolver.__getattr__]. rewrite Hown, Hbind. reflexivity.
  - cbn [Resolver.__getattr__]. rewrite Hown. reflexivity.
  - cbn [Resolver.__getattr__]. rewrite Hown. reflexivity.
Qed.

(** X3.  Resolving one attribute of a backend module resolves the whole
    module: afterwards the name asked for and every attribute of the
    module that is not an alias are found in the namespace, so reading
    them through the package imports nothing more. *)
Theorem module_resolved_at_once (E : environment) (depth depth' : nat)
    (st : state) (name_ module_ : string) (module : option backend_module) :
  Dict.get Registry._ATTRIBUTES (Registry.canonical name_)
    = Some (Some module_) ->
  Resolver.bind_backend E module_ = Return module ->
  imported (snd (Resolver.__getattr__ E (S depth) st name_))
  = imported st ++ [module_]
  /\ Resolver.getattr E depth'
       (snd (Resolver.__getattr__ E (S depth) st name_)) name_
     = (Return (Resolver.provided module (Registry.canonical name_)),
        snd (Resolver.__getattr__ E (S depth) st name_))
  /\ forall n,
       Dict.get Registry._ATTRIBUTES n = Some (Some module_) ->
       Dict.mem Registry._COMPATIBILITY n = false ->
       Resolver.getattr E depth'
         (snd (Resolver.__getattr__ E (S depth) st name_)) n
       = (Return (Resolver.provided module n),
          snd (Resolver.__getattr__ E (S depth) st name_)).
Proof.
  intros Hown Hbind.
  destruct (getattr_owned E depth st _ _ _ Hown Hbind) as (l & Hl & ->).
  cbn [snd imported]. split; [reflexivity|].
  assert (forall n,
             Dict.get Registry._ATTRIBUTES n = Some (Some module_) ->
             In n (Registry.names l)) as Hlist.
  { intros n Hn. apply attributes_in_api in Hn as (l' & Hl' & Hin).
    rewrite Hl in Hl'. injection Hl' as <-. exact Hin. }
  split.
  - unfold Resolver.getattr. cbn [namespace].
    rewrite resolved_namespace_lookup.
    destruct (decide (name_ = name_ /\ _)) as [_ | Hno]; [reflexivity|].
    assert (Registry.canonical name_ = name_) as Heq.
    { destruct (decide (Registry.canonical name_ = name_)) as [Heq | Hne];
        [exact Heq|]. exfalso. apply Hno. split; [reflexivity | exact Hne]. }
    rewrite Heq in *.
    destruct (decide (name_ ∈ _ /\ _)) as [_ | Hno']; [reflexivity|].
    exfalso. apply Hno'. split; [apply list_elem_of_In, Hlist, Hown|].
    rewrite <- Heq. apply canonical_not_alias.
  - intros n Hn Hmem. unfold Resolver.getattr. cbn [namespace].
    rewrite resolved_namespace_lookup.
    destruct (decide (n = name_ /\ _)) as [[-> Hne] | _].
    + apply not_canonical_is_alias in Hne. rewrite Hmem in Hne.
      discriminate Hne.
    + destruct (decide (n ∈ _ /\ _)) as [_ | Hno']; [reflexivity|].
      exfalso. apply Hno'. split; [apply list_elem_of_In, Hlist, Hn | exact Hmem].
Qed.

Lemma module_resolved_at_once_witness :
  imported (snd (Resolver.__getattr__ sample_backends 1 initial_state
                   "png_decode"))
  = imported initial_state ++ ["png"]
  /\ Resolver.getattr sample_backends 0
       (snd (Resolver.__getattr__ sample_backends 1 initial_state
               "png_decode")) "png_decode"
     = (Return (Resolver.provided (Some png_module)
                  (Registry.canonical "png_decode")),
        snd (Resolver.__getattr__ sample_backends 1 initial_state
               "png_decode"))
  /\ forall n,
       Dict.get Registry._ATTRIBUTES n = Some (Some "png") ->
       Dict.mem Registry._COMPATIBILITY n = false ->
       Resolver.getattr sample_backends 0
         (snd (Resolver.__getattr__ sample_backends 1 initial_state
                 "png_decode")) n
       = (Return (Resolver.provided (Some png_module) n),
          snd (Resolver.__getattr__ sample_backends 1 initial_state
                 "png_decode")).
Proof.
  apply (module_resolved_at_once sample_backends 0 0 initial_state
           "png_decode" "png" (Some png_module)).
  - vm_compute. reflexivity.
  - reflexivity.
Defined.



(** ** Loading every attribute *)

(** A name listed under a backend module is owned by it. *)
Lemma listed_is_owned (module_ : string) (l : list api_entry) (n : string) :
  Dict.get Registry._API (Some module_) = Some l ->
  In n (Registry.names l) ->
  Dict.get Registry._ATTRIBUTES n = Some (Some module_).
Proof.
  intros Hl%dict_get_In Hin.
  assert (forallb
            (fun ml : option string * list api_entry =>
               forallb (fun n => bool_decide
                                   (Dict.get Registry._ATTRIBUTES n
                                    = Some (fst ml)))
                       (Registry.names (snd ml)))
            Registry._API = true) as Hall
    by (vm_compute; reflexivity).
  rewrite forallb_forall in Hall. specialize (Hall _ Hl).
  cbn [fst snd] in Hall. rewrite forallb_forall in Hall.
  specialize (Hall _ Hin). apply bool_decide_eq_true in Hall. exact Hall.
Qed.

(** Every name of the directory listing is registered, as itself or
    through its canonical name. *)
Lemma dir_registered (n : string) :
  In n Registry.__dir__ ->
  Dict.get Registry._ATTRIBUTES (Registry.canonical n) <> None.
Proof.
  intros Hin.
  assert (forallb (fun n => Dict.mem Registry._ATTRIBUTES
                              (Registry.canonical n))
                  Registry.__dir__ = true) as Hall
    by (vm_compute; reflexivity).
  rewrite forallb_forall in Hall. specialize (Hall _ Hin).
  unfold Dict.mem in Hall. intros Hnone. rewrite Hnone in Hall.
  discriminate Hall.
Qed.

Section LoadAll.
Context (E : environment) (depth : nat).
Hypothesis absorbed :
  forall module_, exists module, Resolver.bind_backend E module_ = Return module.

(** One resolution returns, and writes nothing but expected values. *)
Lemma load_step (st : state) (x : string) :
  Dict.get Registry._ATTRIBUTES (Registry.canonical x) <> None ->
  exists v st1,
    Resolver.__getattr__ E (S depth) st x = (Return v, st1)
    /\ (forall n,
          namespace st1 !! n = namespace st !! n
          \/ (is_Some (Loader.expected E n)
              /\ namespace st1 !! n = Loader.expected E n))
    /\ (is_Some (Loader.expected E x) ->
        namespace st1 !! x = Loader.expected E x).
Proof.
  intros Hreg.
  destruct (Dict.get Registry._ATTRIBUTES (Registry.canonical x))
    as [[module_|]|] eqn:Hown; [| |contradiction].
  - destruct (absorbed module_) as [module Hbind].
    destruct (getattr_owned E depth st _ _ _ Hown Hbind) as (l & Hl & ->).
    assert (Loader.expected E x
            = Some (Resolver.provided module (Registry.canonical x))) as Hx
      by (unfold Loader.expected; rewrite Hown, Hbind; reflexivity).
    assert (forall n,
               n ∈ Registry.names l ->
               Dict.mem Registry._COMPATIBILITY n = false ->
               Loader.expected E n = Some (Resolver.provided module n))
      as Hlisted.
    { intros n Hin%list_elem_of_In Hmem. unfold Loader.expected.
      rewrite (non_alias_canonical _ Hmem).
      rewrite (listed_is_owned _ _ _ Hl Hin), Hbind. reflexivity. }
    eexists _, _. split; [reflexivity|]. cbn [namespace]. split.
    + intros n. rewrite resolved_namespace_lookup.
      destruct (decide (n = x /\ _)) as [[-> _] | _].
      * right. rewrite Hx. split; [eexists|]; reflexivity.
      * destruct (decide (n ∈ _ /\ _)) as [[Hin Hmem] | _]; [|left; reflexivity].
        right. rewrite (Hlisted _ Hin Hmem). split; [eexists|]; reflexivity.
    + intros _. rewrite resolved_namespace_lookup, Hx.
      destruct (decide (x = x /\ _)) as [_ | Hno]; [reflexivity|].
      assert (Registry.canonical x = x) as Heq.
      { destruct (decide (Registry.canonical x = x)) as [Heq | Hne];
          [exact Heq|]. exfalso. apply Hno. split; [reflexivity | exact Hne]. }
      rewrite Heq in *.
      destruct (decide (x ∈ _ /\ _)) as [_ | Hno']; [reflexivity|].
      exfalso. apply Hno'.
      destruct (attributes_in_api _ _ Hown) as (l' & Hl' & Hin).
      rewrite Hl in Hl'. injection Hl' as <-.
      split; [apply list_elem_of_In, Hin|].
      rewrite <- Heq. apply canonical_not_alias.
  - exists PyNone, st. split.
    + cbn [Resolver.__getattr__]. rewrite Hown. reflexivity.
    + split; [intros n; left; reflexivity|].
      unfold Loader.expected. rewrite Hown. intros [v Hv]. discriminate Hv.
Qed.

Lemma load_fold (l : list string) :
  (forall n, In n l ->
             Dict.get Registry._ATTRIBUTES (Registry.canonical n) <> None) ->
  forall st,
  exists st',
    fold_left (Loader.load E (S depth)) l (Return tt, st) = (Return tt, st')
    /\ (forall n,
          namespace st' !! n = namespace st !! n
          \/ (is_Some (Loader.expected E n)
              /\ namespace st' !! n = Loader.expected E n))
    /\ (forall n, In n l -> is_Some (Loader.expected E n) ->
                  namespace st' !! n = Loader.expected E n).
Proof.
  induction l as [|x l IH]; intros Hreg st.
  - exists st. split; [reflexivity|]. split; [intros n; left; reflexivity|].
    intros n [].
  - destruct (load_step st x (Hreg x (or_introl eq_refl)))
      as (v & st1 & Hstep & Hwrites & Hx).
    destruct (IH (fun n Hn => Hreg n (or_intror Hn)) st1)
      as (st' & Hfold & Hwrites' & Hl).
    exists st'. split.
    + cbn [fold_left]. unfold Loader.load at 2. rewrite Hstep. exact Hfold.
    + split.
      * intros n. destruct (Hwrites' n) as [Hsame | Hexp]; [|right; exact Hexp].
        rewrite Hsame. apply Hwrites.
      * intros n [<- | Hin] Hsome; [|apply Hl; assumption].
        destruct (Hwrites' x) as [Hsame | [_ Hexp]]; [|exact Hexp].
        rewrite Hsame. apply Hx, Hsome.
Qed.

End LoadAll.

(** X5.  When no import lets an exception escape, [_load_all] returns,
    and afterwards the namespace is complete: every name of the
    directory listing that belongs to a backend module, under its own
    name or as an alias, is bound to the attribute of the bound module
    or to its stub.  Names that belong to no backend module, the
    functions of the source file among them, keep what they were bound
    to. *)
Theorem load_all_completes (E : environment) (depth : nat) (st : state) :
  (forall module_,
      exists module, Resolver.bind_backend E module_ = Return module) ->
  exists st',
    Loader._load_all E (S depth) st = (Return tt, st')
    /\ (forall n module_,
          In n Registry.__dir__ ->
          Dict.get Registry._ATTRIBUTES (Registry.canonical n)
            = Some (Some module_) ->
          exists module,
            Resolver.bind_backend E module_ = Return module
            /\ namespace st' !! n
               = Some (Resolver.provided module (Registry.canonical n)))
    /\ (forall n,
          Dict.get Registry._ATTRIBUTES (Registry.canonical n) = Some None
          \/ Dict.get Registry._ATTRIBUTES (Registry.canonical n) = None ->
          namespace st' !! n = namespace st !! n).
Proof.
  intros Habs.
  destruct (load_fold E depth Habs Registry.__dir__ dir_registered st)
    as (st' & Hfold & Hwrites & Hall).
  exists st'. split; [exact Hfold|]. split.
  - intros n module_ Hin Hown. destruct (Habs module_) as [module Hbind].
    exists module. split; [exact Hbind|].
    assert (Loader.expected E n
            = Some (Resolver.provided module (Registry.canonical n))) as Hexp
      by (unfold Loader.expected; rewrite Hown, Hbind; reflexivity).
    rewrite <- Hexp. apply Hall; [exact Hin|]. rewrite Hexp. eexists.
    reflexivity.
  - intros n Hown. destruct (Hwrites n) as [Hsame | [[v Hv] _]];
      [exact Hsame|].
    unfold Loader.expected in Hv. destruct Hown as [Hown | Hown];
      rewrite Hown in Hv; discriminate Hv.
Qed.

Lemma load_all_completes_witness :
  exists st',
    Loader._load_all no_backends 1 initial_state = (Return tt, st')
    /\ (forall n module_,
          In n Registry.__dir__ ->
          Dict.get Registry._ATTRIBUTES (Registry.canonical n)
            = Some (Some module_) ->
          exists module,
            Resolver.bind_backend no_backends module_ = Return module
            /\ namespace st' !! n
               = Some (Resolver.provided module (Registry.canonical n)))
    /\ (forall n,
          Dict.get Registry._ATTRIBUTES (Registry.canonical n) = Some None
          \/ Dict.get Registry._ATTRIBUTES (Registry.canonical n) = None ->
          namespace st' !! n = namespace initial_state !! n).
Proof.
  apply (load_all_completes no_backends 0 initial_state).
  intros module_. exists None. reflexivity.
Defined.

(** ** More on the stubs *)




(** The class of a presence flag takes no arguments. *)
Example class_stub_called_with_arguments :
  call no_backends (Stubs._stub "PNG" None) [PyBytes "abc"] []
  = Raise (TypeError "STUB() takes no arguments").
Proof. reflexivity. Qed.

Lemma _stub_check (name : string) (module : option backend_module) :
  PyStr.endswith name "_check" = true ->
  Stubs._stub name module = stub_check.
Proof.
  intros H. unfold Stubs._stub.
  assert (PyStr.endswith name "_version" = false) as -> by other_suffix H.
  rewrite H. reflexivity.
Qed.

(** The resolver on an attribute its backend does not provide: the stub
    of the canonical name. *)
Lemma getattr_missing (E : environment) (depth : nat) (st : state)
    (name_ module_ : string) (module : option backend_module) :
  Dict.get Registry._ATTRIBUTES (Registry.canonical name_)
    = Some (Some module_) ->
  Resolver.bind_backend E module_ = Return module ->
  match module with
  | None => True
  | Some m => default PyNone (m (Registry.canonical name_)) = PyNone
  end ->
  exists st',
    Resolver.__getattr__ E (S depth) st name_
    = (Return (Stubs._stub (Registry.canonical name_) module), st')
    /\ imported st' = imported st ++ [module_].
Proof.
  intros Hown Hbind Hmissing.
  destruct (getattr_owned E depth st _ _ _ Hown Hbind) as (l & _ & ->).
  assert (Resolver.provided module (Registry.canonical name_)
          = Stubs._stub (Registry.canonical name_) module) as ->.
  { unfold Resolver.provided.
    destruct module as [m|]; [rewrite Hmissing|]; reflexivity. }
  eexists. split; reflexivity.
Qed.

(** X7.  The check function of a codec whose backend did not bind, or
    bound without it, answers [False] for every argument: data is never
    reported to match a codec that is not there. *)
Theorem check_stub_never_matches (E : environment) (depth : nat)
    (st : state) (name_ module_ : string) (module : option backend_module) :
  PyStr.endswith (Registry.canonical name_) "_check" = true ->
  Dict.get Registry._ATTRIBUTES (Registry.canonical name_)
    = Some (Some module_) ->
  Resolver.bind_backend E module_ = Return module ->
  match module with
  | None => True
  | Some m => default PyNone (m (Registry.canonical name_)) = PyNone
  end ->
  exists stub,
    fst (Resolver.__getattr__ E (S depth) st name_) = Return stub
    /\ forall arg, call E stub [arg] [] = Return (PyBool false).
Proof.
  intros Hcheck Hown Hbind Hmissing.
  destruct (getattr_missing E depth st _ _ _ Hown Hbind Hmissing)
    as (st' & -> & _).
  rewrite (_stub_check _ _ Hcheck).
  exists stub_check. split; reflexivity.
Qed.

Lemma check_stub_never_matches_witness :
  exists stub,
    fst (Resolver.__getattr__ sample_backends 1 initial_state "zopfli_check")
    = Return stub
    /\ forall arg, call sample_backends stub [arg] [] = Return (PyBool false).
Proof.
  apply (check_stub_never_matches sample_backends 0 initial_state
           "zopfli_check" "zlib" None).
  - reflexivity.
  - vm_compute. reflexivity.
  - reflexivity.
  - exact I.
Defined.

(** ** Calling a codec function that is not available *)

(** An alias of an encode or decode function stands for one. *)
Lemma canonical_keeps_suffix (name : string) :
  (PyStr.endswith name "_encode" = true ->
   PyStr.endswith (Registry.canonical name) "_encode" = true)
  /\ (PyStr.endswith name "_decode" = true ->
      PyStr.endswith (Registry.canonical name) "_decode" = true).
Proof.
  unfold Registry.canonical.
  destruct (Dict.get Registry._COMPATIBILITY name) as [target|] eqn:Halias;
    [|split; intros H; exact H].
  apply dict_get_In in Halias.
  assert (forallb (fun kv : string * string =>
                     implb (PyStr.endswith (fst kv) "_encode")
                           (PyStr.endswith (snd kv) "_encode")
                     && implb (PyStr.endswith (fst kv) "_decode")
                              (PyStr.endswith (snd kv) "_decode"))
                  Registry._COMPATIBILITY = true) as Hall
    by (vm_compute; reflexivity).
  rewrite forallb_forall in Hall. specialize (Hall _ Halias).
  cbn [fst snd default from_option id] in *.
  apply andb_true_iff in Hall as [He Hd].
  split; intros H; rewrite H in *; [exact He | exact Hd].
Qed.

(** Looking up and calling a decode or encode function that the
    namespace does not hold yet and that the backend does not provide. *)
Lemma invoke_unavailable (E : environment) (depth : nat) (st : state)
    (name module_ : string) (module : option backend_module)
    (args : list value) (kw : kwargs) :
  PyStr.endswith name "_decode" = true
  \/ PyStr.endswith name "_encode" = true ->
  namespace st !! name = None ->
  Dict.get Registry._ATTRIBUTES (Registry.canonical name)
    = Some (Some module_) ->
  Resolver.bind_backend E module_ = Return module ->
  match module with
  | None => True
  | Some m => default PyNone (m (Registry.canonical name)) = PyNone
  end ->
  exists st',
    Builtin.invoke E (S depth) st name args kw
    = (Raise (DelayedImportError (Registry.canonical name)), st')
    /\ imported st' = imported st ++ [module_].
Proof.
  intros Hsuffix Hns Hown Hbind Hmissing.
  destruct (getattr_missing E depth st _ _ _ Hown Hbind Hmissing)
    as (st' & Hget & Himp).
  exists st'. split; [|exact Himp].
  unfold Builtin.invoke, Resolver.getattr. rewrite Hns, Hget.
  destruct (canonical_keeps_suffix name) as [He Hd].
  destruct Hsuffix as [H | H].
  - rewrite (_stub_decode _ _ (Hd H)). reflexivity.
  - rewrite (_stub_encode _ _ (He H)). reflexivity.
Qed.

(** ** The generic writer *)

(** Looking up a name that neither the namespace nor the registry
    knows. *)
Lemma getattr_unknown (E : environment) (depth : nat) (st : state)
    (name : string) :
  namespace st !! name = None ->
  Dict.get Registry._ATTRIBUTES (Registry.canonical name) = None ->
  exists msg,
    Resolver.getattr E (S depth) st name = (Raise (AttributeError msg), st).
Proof.
  intros Hns Hnone. unfold Resolver.getattr. rewrite Hns.
  cbn [Resolver.__getattr__]. rewrite Hnone. eexists. reflexivity.
Qed.

(** X10.  [imwrite] rejects a codec it cannot use before anything is
    encoded, imported or written: without a codec and without a file
    name it raises [ValueError('no codec specified')]; for a codec that
    is neither a name nor callable, and for a name (given, or taken from
    the file extension, in lower case and mapped through the extension
    table) whose encode function is unknown, it raises
    [ValueError] naming the codec. *)
Theorem imwrite_invalid_codec (E : environment) (depth : nat) (st : state)
    (data : value) (kw : kwargs) :
  (forall f, (forall p, f <> Path p) ->
             Imwrite.imwrite E depth st f data None kw
             = (Raise (ValueError "no codec specified"), st))
  /\ (forall f c,
        callable c = false -> (forall s, c <> PyStr s) ->
        Imwrite.imwrite E depth st f data (Some c) kw
        = (Raise (ValueError ("invalid codec " +:+ value_repr E c)), st))
  /\ (forall f c,
        namespace st
          !! (default (PyStr.lower c)
                      (Dict.get Imread._imcodecs (PyStr.lower c))
                +:+ "_encode") = None ->
        Dict.get Registry._ATTRIBUTES
          (Registry.canonical
             (default (PyStr.lower c)
                      (Dict.get Imread._imcodecs (PyStr.lower c))
                +:+ "_encode")) = None ->
        Imwrite.imwrite E (S depth) st f data (Some (PyStr c)) kw
        = (Raise (ValueError
                    ("invalid codec "
                       +:+ PyStr.repr
                             (default (PyStr.lower c)
                                (Dict.get Imread._imcodecs (PyStr.lower c))))),
           st))
  /\ (forall p,
        namespace st
          !! (default (PyStr.lower (splitext_ext E p))
                      (Dict.get Imread._imcodecs
                                (PyStr.lower (splitext_ext E p)))
                +:+ "_encode") = None ->
        Dict.get Registry._ATTRIBUTES
          (Registry.canonical
             (default (PyStr.lower (splitext_ext E p))
                      (Dict.get Imread._imcodecs
                                (PyStr.lower (splitext_ext E p)))
                +:+ "_encode")) = None ->
        Imwrite.imwrite E (S depth) st (Path p) data None kw
        = (Raise (ValueError
                    ("invalid codec "
                       +:+ PyStr.repr
                             (default (PyStr.lower (splitext_ext E p))
                                (Dict.get Imread._imcodecs
                                   (PyStr.lower (splitext_ext E p)))))),
           st)).
Proof.
  split; [|split; [|split]].
  - intros f Hf. unfold Imwrite.imwrite, Imwrite.select.
    destruct f as [p| | |]; [destruct (Hf p eq_refl) | | |]; reflexivity.
  - intros f c Hcall Hstr. unfold Imwrite.imwrite, Imwrite.select.
    destruct c; try (rewrite Hcall; reflexivity).
    destruct (Hstr _ eq_refl).
  - intros f c Hns Hnone. unfold Imwrite.imwrite, Imwrite.select,
      Imwrite.encoder.
    destruct (getattr_unknown E depth st _ Hns Hnone) as [msg ->].
    reflexivity.
  - intros p Hns Hnone. unfold Imwrite.imwrite, Imwrite.select,
      Imwrite.encoder.
    destruct (getattr_unknown E depth st _ Hns Hnone) as [msg ->].
    reflexivity.
Qed.

Lemma imwrite_invalid_codec_witness :
  Imwrite.imwrite sample_backends 1 initial_state (Stream PyNone)
                  (PyBytes "abc") (Some (PyStr "TGA")) []
  = (Raise (ValueError "invalid codec 'tga'"), initial_state).
Proof.
  apply (proj1 (proj2 (proj2 (imwrite_invalid_codec sample_backends 0
                                 initial_state (PyBytes "abc") [])))
           (Stream PyNone) "TGA").
  - vm_compute. reflexivity.
  - vm_compute. reflexivity.
Defined.

(** X11.  [imwrite] with the name of a codec whose backend did not
    bind, or bound without the encode function: the deferred error is
    not turned into [invalid codec]; the call of the stub raises
    [DelayedImportError] with the name of the encode function, and
    nothing is written. *)
Theorem imwrite_unavailable_backend (E : environment) (depth : nat)
    (st : state) (f : fileobj) (data : value) (kw : kwargs)
    (c module_ : string) (module : option backend_module) :
  namespace st
    !! (default (PyStr.lower c) (Dict.get Imread._imcodecs (PyStr.lower c))
          +:+ "_encode") = None ->
  Dict.get Registry._ATTRIBUTES
    (Registry.canonical
       (default (PyStr.lower c) (Dict.get Imread._imcodecs (PyStr.lower c))
          +:+ "_encode")) = Some (Some module_) ->
  Resolver.bind_backend E module_ = Return module ->
  match module with
  | None => True
  | Some m =>
      default PyNone
        (m (Registry.canonical
              (default (PyStr.lower c)
                       (Dict.get Imread._imcodecs (PyStr.lower c))
                 +:+ "_encode"))) = PyNone
  end ->
  fst (Imwrite.imwrite E (S depth) st f data (Some (PyStr c)) kw)
  = Raise (DelayedImportError
             (Registry.canonical
                (default (PyStr.lower c)
                         (Dict.get Imread._imcodecs (PyStr.lower c))
                   +:+ "_encode"))).
Proof.
  intros Hns Hown Hbind Hmissing.
  destruct (getattr_missing E depth st _ _ _ Hown Hbind Hmissing)
    as (st' & Hget & _).
  unfold Imwrite.imwrite, Imwrite.select, Imwrite.encoder, Resolver.getattr.
  rewrite Hns, Hget.
  destruct (canonical_keeps_suffix
              (default (PyStr.lower c)
                       (Dict.get Imread._imcodecs (PyStr.lower c))
                 +:+ "_encode")) as [He _].
  rewrite (_stub_encode _ _ (He (endswith_app _ _))). reflexivity.
Qed.

Lemma imwrite_unavailable_backend_witness :
  fst (Imwrite.imwrite sample_backends 1 initial_state (Path "out.bin")
                       (PyBytes "abc") (Some (PyStr "JP2")) [])
  = Raise (DelayedImportError "jpeg2k_encode").
Proof.
  apply (imwrite_unavailable_backend sample_backends 0 initial_state
           (Path "out.bin") (PyBytes "abc") [] "JP2" "jpeg2k" None).
  - vm_compute. reflexivity.
  - vm_compute. reflexivity.
  - reflexivity.
  - exact I.
Defined.

(** X12.  With the codec [none], by name in any case or as the function
    itself, [imwrite] hands the data it was given, unchanged, to the
    stream or to the file, and imports nothing. *)
Theorem imwrite_none_verbatim (E : environment) (depth : nat) (st : state)
    (f : fileobj) (data : value) (kw : kwargs) :
  (forall c,
      PyStr.lower c = "none" ->
      namespace st !! "none_encode" = Some (Global "none_encode") ->
      Imwrite.imwrite E depth st f data (Some (PyStr c)) kw
      = (Return (Imwrite.deliver E f data), st))
  /\ Imwrite.imwrite E depth st f data (Some (Global "none_encode")) kw
     = (Return (Imwrite.deliver E f data), st).
Proof.
  split; [|reflexivity].
  intros c Hc Hns.
  unfold Imwrite.imwrite, Imwrite.select, Imwrite.encoder, Resolver.getattr.
  rewrite Hc.
  change (default "none" (Dict.get Imread._imcodecs "none") +:+ "_encode")
    with "none_encode".
  rewrite Hns. reflexivity.
Qed.

Lemma imwrite_none_verbatim_witness :
  Imwrite.imwrite sample_backends 0 initial_state (Path "raw.dat")
                  (PyBytes "abc") (Some (PyStr "None")) []
  = (Return (ToFile "raw.dat" (PyBytes "abc")), initial_state).
Proof.
  apply (proj1 (imwrite_none_verbatim sample_backends 0 initial_state
                  (Path "raw.dat") (PyBytes "abc") []) "None").
  - reflexivity.
  - vm_compute. reflexivity.
Defined.

(** ** The codec [jpeg] of the source file *)

(** X13.  [jpeg_decode] without [bitspersample], or with 8, when the
    8-bit backend is not available: the deferred error of
    [jpeg8_decode] carries neither of the two messages that trigger a
    fallback, so it is raised as it is; the 12-bit and lossless backends
    are not tried, and only the import of [jpeg8] is attempted. *)
Theorem jpeg_decode_needs_jpeg8 (E : environment) (depth : nat) (st : state)
    (data data' : value) (o : Builtin.decode_options)
    (module : option backend_module) :
  Builtin.d_bitspersample o = None \/ Builtin.d_bitspersample o = Some 8 ->
  Builtin.with_header data o = Return data' ->
  namespace st !! "jpeg8_decode" = None ->
  Resolver.bind_backend E "jpeg8" = Return module ->
  match module with
  | None => True
  | Some m => default PyNone (m "jpeg8_decode") = PyNone
  end ->
  fst (Builtin.jpeg_decode E (S depth) st data o)
  = Raise (DelayedImportError "jpeg8_decode")
  /\ imported (snd (Builtin.jpeg_decode E (S depth) st data o))
     = imported st ++ ["jpeg8"].
Proof.
  intros Hbits Hheader Hns Hbind Hmissing.
  assert (Dict.get Registry._ATTRIBUTES (Registry.canonical "jpeg8_decode")
          = Some (Some "jpeg8")) as Hown by (vm_compute; reflexivity).
  destruct (invoke_unavailable E depth st "jpeg8_decode" "jpeg8" module
              [data'] (Builtin.baseline_kwargs o)
              (or_introl eq_refl) Hns Hown Hbind Hmissing)
    as (st' & Hinvoke & Himp).
  change (Registry.canonical "jpeg8_decode") with "jpeg8_decode" in Hinvoke.
  unfold Builtin.jpeg_decode. rewrite Hheader.
  destruct Hbits as [-> | ->]; cbn [Nat.eqb]; rewrite Hinvoke;
    split; (reflexivity || exact Himp).
Qed.

Lemma jpeg_decode_needs_jpeg8_witness :
  fst (Builtin.jpeg_decode sample_backends 1 initial_state (PyBytes "abc")
         {| Builtin.d_bitspersample := None; Builtin.d_tables := PyNone;
            Builtin.d_header := Some "hdr"; Builtin.d_colorspace := PyNone;
            Builtin.d_outcolorspace := PyNone; Builtin.d_shape := PyNone;
            Builtin.d_numthreads := PyNone; Builtin.d_out := PyNone |})
  = Raise (DelayedImportError "jpeg8_decode")
  /\ imported
       (snd (Builtin.jpeg_decode sample_backends 1 initial_state
               (PyBytes "abc")
               {| Builtin.d_bitspersample := None; Builtin.d_tables := PyNone;
                  Builtin.d_header := Some "hdr";
                  Builtin.d_colorspace := PyNone;
                  Builtin.d_outcolorspace := PyNone;
                  Builtin.d_shape := PyNone;
                  Builtin.d_numthreads := PyNone;
                  Builtin.d_out := PyNone |}))
     = imported initial_state ++ ["jpeg8"].
Proof.
  apply (jpeg_decode_needs_jpeg8 sample_backends 0 initial_state
           (PyBytes "abc")
           (PyBytes ("hdr" +:+ "abc" +:+ Builtin.end_of_image)) _ None).
  - left. reflexivity.
  - reflexivity.
  - vm_compute. reflexivity.
  - reflexivity.
  - exact I.
Defined.

(** X14.  [jpeg_encode] picks one backend: the lossless one when
    [lossless] is set, else the 8-bit one for [uint8] data and the
    12-bit one for [uint16] data.  Data of any other element type is
    refused with [ValueError] before anything is looked up or imported;
    when the backend picked is not available, the deferred error names
    its encode function. *)
Theorem jpeg_encode_selects (E : environment) (depth : nat) (st : state)
    (data : value) (o : Builtin.encode_options) :
  (forall dtype,
      Builtin.e_lossless o = false ->
      Imread.dtype_of data = Return dtype ->
      dtype <> "uint8" -> dtype <> "uint16" ->
      Builtin.jpeg_encode E depth st data o
      = (Raise (ValueError ("invalid data type " +:+ dtype)), st))
  /\ (forall name module_ module,
        (Builtin.e_lossless o = true /\ name = "ljpeg_encode")
        \/ (Builtin.e_lossless o = false
            /\ Imread.dtype_of data = Return "uint8"
            /\ name = "jpeg8_encode")
        \/ (Builtin.e_lossless o = false
            /\ Imread.dtype_of data = Return "uint16"
            /\ name = "jpeg12_encode") ->
        namespace st !! name = None ->
        Dict.get Registry._ATTRIBUTES name = Some (Some module_) ->
        Resolver.bind_backend E module_ = Return module ->
        match module with
        | None => True
        | Some m => default PyNone (m name) = PyNone
        end ->
        fst (Builtin.jpeg_encode E (S depth) st data o)
        = Raise (DelayedImportError name)
        /\ imported (snd (Builtin.jpeg_encode E (S depth) st data o))
           = imported st ++ [module_]).
Proof.
  split.
  - intros dtype Hlossless Hdtype H8 H16. unfold Builtin.jpeg_encode.
    rewrite Hlossless, Hdtype.
    destruct (String.eqb dtype "uint8") eqn:He8;
      [apply eqb_true_eq in He8; contradiction|].
    destruct (String.eqb dtype "uint16") eqn:He16;
      [apply eqb_true_eq in He16; contradiction|].
    reflexivity.
  - intros name module_ module Hsel Hns Hown Hbind Hmissing.
    assert (Registry.canonical name = name
            /\ PyStr.endswith name "_encode" = true) as [Hcan Hsuffix].
    { destruct Hsel as [[_ ->] | [(_ & _ & ->) | (_ & _ & ->)]];
        split; reflexivity. }
    assert (forall args kw,
               exists st',
                 Builtin.invoke E (S depth) st name args kw
                 = (Raise (DelayedImportError name), st')
                 /\ imported st' = imported st ++ [module_]) as Hinvoke.
    { intros args kw. rewrite <- Hcan in Hown, Hmissing.
      destruct (invoke_unavailable E depth st name module_ module args kw
                  (or_intror Hsuffix) Hns Hown Hbind Hmissing)
        as (st' & H & Himp).
      rewrite Hcan in H. exists st'. split; assumption. }
    unfold Builtin.jpeg_encode.
    destruct Hsel as [[-> ->] | [(-> & -> & ->) | (-> & -> & ->)]];
      cbn [String.eqb Ascii.eqb Bool.eqb];
      match goal with
      | |- context [Builtin.invoke E (S depth) st ?n ?args ?kw] =>
          destruct (Hinvoke args kw) as (st' & -> & Himp)
      end; split; (reflexivity || exact Himp).
Qed.

Lemma jpeg_encode_selects_witness :
  Builtin.jpeg_encode sample_backends 1 initial_state
    (ndarray "float32" [2; 2] "0123456789abcdef")
    {| Builtin.e_level := PyNone; Builtin.e_colorspace := PyNone;
       Builtin.e_outcolorspace := PyNone; Builtin.e_subsampling := PyNone;
       Builtin.e_optimize := PyNone; Builtin.e_smoothing := PyNone;
       Builtin.e_lossless := false; Builtin.e_bitspersample := PyNone;
       Builtin.e_numthreads := PyNone; Builtin.e_out := PyNone |}
  = (Raise (ValueError ("invalid data type " +:+ "float32")), initial_state).
Proof.
  apply (proj1 (jpeg_encode_selects sample_backends 1 initial_state
                  (ndarray "float32" [2; 2] "0123456789abcdef") _)
           "float32"); (reflexivity || discriminate).
Defined.

(** ** The codec [numpy] of the source file *)

Lemma prefix_length (a s : string) :
  String.prefix a s = true -> String.length a <= String.length s.
Proof.
  revert s. induction a as [|x a IH]; intros s; cbn [String.length];
    [lia|].
  destruct s as [|y s]; cbn [String.prefix String.length]; [discriminate|].
  destruct (ascii_dec x y); [|discriminate].
  intros H%IH. lia.
Qed.

Lemma contains_length (a s : string) :
  Builtin.contains a s = true -> String.length a <= String.length s.
Proof.
  induction s as [|y s IH]; cbn [Builtin.contains].
  - destruct (String.prefix a EmptyString) eqn:Hp; [|discriminate].
    intros _. apply prefix_length, Hp.
  - destruct (String.prefix a (String y s)) eqn:Hp.
    + intros _. apply prefix_length, Hp.
    + intros H%IH. cbn [String.length]. lia.
Qed.

Lemma substring_length_le (n : nat) (s : string) :
  String.length (String.substring 0 n s) <= String.length s.
Proof.
  revert s. induction n as [|n IH]; intros [|c s]; cbn; try lia.
  specialize (IH s). lia.
Qed.

Lemma substring_idem (n : nat) (s : string) :
  String.substring 0 n (String.substring 0 n s) = String.substring 0 n s.
Proof.
  revert s. induction n as [|n IH]; intros [|c s]; cbn; try reflexivity.
  rewrite IH. reflexivity.
Qed.

Lemma prefix_substring_app (a rest : string) (n : nat) :
  String.length a <= n ->
  String.prefix a (String.substring 0 n (a +:+ rest)) = true.
Proof.
  revert n. induction a as [|x a IH]; intros n Hn.
  - destruct (String.substring 0 n (EmptyString +:+ rest)); reflexivity.
  - destruct n as [|n]; cbn [String.length] in Hn; [lia|].
    change (String x a +:+ rest) with (String x (a +:+ rest)).
    cbn [String.substring String.prefix].
    destruct (ascii_dec x x); [|contradiction].
    apply IH. lia.
Qed.

(** X15.  [numpy_check] looks at the first 64 bytes only: data that
    starts with the NPY magic string is accepted whatever follows, the
    answer for any data is the answer for its first 64 bytes, and data
    shorter than the six bytes of the magic string is never accepted. *)
Theorem numpy_check_reads_the_head (data rest : string) :
  Builtin.numpy_check (Builtin.numpy_magic +:+ rest) = true
  /\ Builtin.numpy_check data
     = Builtin.numpy_check (String.substring 0 64 data)
  /\ (String.length data < 6 -> Builtin.numpy_check data = false).
Proof.
  split; [|split].
  - unfold Builtin.numpy_check.
    rewrite prefix_substring_app
      by (cbn [Builtin.numpy_magic String.length]; lia).
    reflexivity.
  - unfold Builtin.numpy_check. rewrite substring_idem. reflexivity.
  - intros Hshort. unfold Builtin.numpy_check.
    pose proof (substring_length_le 64 data) as Hle.
    destruct (String.prefix Builtin.numpy_magic _) eqn:Hp.
    { apply prefix_length in Hp. cbn [Builtin.numpy_magic String.length] in Hp.
      lia. }
    destruct (Builtin.contains Builtin.numpy_magic _) eqn:Hc.
    { apply contains_length in Hc.
      cbn [Builtin.numpy_magic String.length] in Hc. lia. }
    rewrite andb_false_r. reflexivity.
Qed.

Lemma numpy_check_reads_the_head_witness :
  Builtin.numpy_check (Builtin.numpy_magic +:+ "rest") = true
  /\ Builtin.numpy_check "PK"
     = Builtin.numpy_check (String.substring 0 64 "PK")
  /\ (String.length "PK" < 6 -> Builtin.numpy_check "PK" = false).
Proof.
  apply (numpy_check_reads_the_head "PK" "rest").
Defined.

(** ** More on the trial loop *)




(** X9.  Without a codec hint the candidates are well formed whatever
    the file object and its extension: no codec is tried twice, every
    one of the nineteen imaging codecs is tried, and every candidate is
    the name of a codec whose decode function is registered, so that
    none can fail as an unknown attribute. *)
Theorem default_candidates_well_formed (E : environment) (f : fileobj) :
  NoDup (Imread.candidates E f None)
  /\ Forall (fun c => PyStr c ∈ Imread.candidates E f None)
            Imread.other_codecs
  /\ Forall (fun c =>
               match c with
               | PyStr s =>
                   Dict.mem Registry._ATTRIBUTES
                            (Registry.canonical (s +:+ "_decode"))
               | _ => false
               end = true)
            (Imread.candidates E f None).
Proof.
  assert (forall first : list value,
             first = []
             \/ (exists ext codec,
                    In (ext, codec) Imread._imcodecs
                    /\ first = if String.eqb codec "jpeg"
                               then List.map PyStr Imread.jpeg_variants
                               else [PyStr codec]) ->
             NoDup (Imread.extend_new first Imread.other_codecs)
             /\ Forall (fun c => PyStr c
                                 ∈ Imread.extend_new first Imread.other_codecs)
                       Imread.other_codecs
             /\ Forall (fun c =>
                          match c with
                          | PyStr s =>
                              Dict.mem Registry._ATTRIBUTES
                                (Registry.canonical (s +:+ "_decode"))
                          | _ => false
                          end = true)
                       (Imread.extend_new first Imread.other_codecs))
    as Hany.
  { assert (forallb
              (fun first : list value =>
                 bool_decide
                   (NoDup (Imread.extend_new first Imread.other_codecs)
                    /\ Forall (fun c =>
                                 PyStr c
                                 ∈ Imread.extend_new first Imread.other_codecs)
                              Imread.other_codecs
                    /\ Forall (fun c =>
                                 match c with
                                 | PyStr s =>
                                     Dict.mem Registry._ATTRIBUTES
                                       (Registry.canonical (s +:+ "_decode"))
                                 | _ => false
                                 end = true)
                              (Imread.extend_new first Imread.other_codecs)))
              ([] :: List.map
                       (fun kv : string * string =>
                          if String.eqb (snd kv) "jpeg"
                          then List.map PyStr Imread.jpeg_variants
                          else [PyStr (snd kv)])
                       Imread._imcodecs) = true) as Hall
      by (vm_compute; reflexivity).
    rewrite forallb_forall in Hall.
    intros first Hfirst. apply (bool_decide_eq_true _), Hall.
    destruct Hfirst as [-> | (ext & codec & Hin & ->)]; [left; reflexivity|].
    right. apply in_map_iff. exists (ext, codec). split; [reflexivity|].
    exact Hin. }
  unfold Imread.candidates, Imread.extension.
  destruct f as [p| | |]; try (apply Hany; left; reflexivity).
  destruct (Dict.get Imread._imcodecs (PyStr.lower (splitext_ext E p)))
    as [codec|] eqn:Hext; [|apply Hany; left; reflexivity].
  apply Hany. right. exists (PyStr.lower (splitext_ext E p)), codec.
  split; [apply dict_get_In, Hext | reflexivity].
Qed.

(** The value [image] holds after one trial: what it held before,
    [None], or what the decode function of the candidate returned. *)
Lemma trial_image (E : environment) (depth : nat) (data : value)
    (kw : kwargs) (l l' : Imread.loop) (c : value) :
  Imread.trial E depth data kw l c = Imread.Break l'
  \/ Imread.trial E depth data kw l c = Imread.Continue l' ->
  Imread.image l' = Imread.image l
  \/ Imread.image l' = PyNone
  \/ exists func_ st',
       Imread.resolve E depth (Imread.resolver l) c = (Return func_, st')
       /\ call E func_ [data] kw = Return (Imread.image l').
Proof.
  unfold Imread.trial.
  destruct (Imread.resolve E depth (Imread.resolver l) c)
    as [[func_|exc] st'] eqn:Hres.
  - destruct (call E func_ [data] kw) as [image_|exc] eqn:Hcall.
    + destruct (Imread.dtype_of image_) as [dtype|exc].
      * destruct (String.eqb dtype "object").
        -- unfold Imread.record_failure. destruct (__name__ E func_);
             intros [[=] | [= <-]]. right. left. reflexivity.
        -- intros [[= <-] | [=]]. right. right. eauto.
      * unfold Imread.record_failure. destruct (__name__ E func_);
          intros [[=] | [= <-]]. right. right. eauto.
    + destruct (is_DelayedImportError exc).
      * intros [[=] | [= <-]]. left. reflexivity.
      * unfold Imread.record_failure. destruct (__name__ E func_);
          intros [[=] | [= <-]]. left. reflexivity.
  - intros [[=] | [= <-]]. left. reflexivity.
Qed.

Lemma trials_image (E : environment) (depth : nat) (data : value)
    (kw : kwargs) (codecs : list value) (l l' : Imread.loop) :
  Imread.trials E depth data kw l codecs = Imread.Break l'
  \/ Imread.trials E depth data kw l codecs = Imread.Continue l' ->
  Imread.image l' = Imread.image l
  \/ Imread.image l' = PyNone
  \/ exists c func_ st0 st',
       In c codecs
       /\ Imread.resolve E depth st0 c = (Return func_, st')
       /\ call E func_ [data] kw = Return (Imread.image l').
Proof.
  revert l. induction codecs as [|c codecs IH]; intros l.
  - cbn [Imread.trials]. intros [[=] | [= <-]]. left. reflexivity.
  - cbn [Imread.trials].
    destruct (Imread.trial E depth data kw l c) as [l1|l1|e st1] eqn:Htrial.
    + intros [[= <-] | [=]].
      destruct (trial_image E depth data kw l l1 c (or_introl Htrial))
        as [H | [H | (func_ & st' & Hres & Hcall)]]; auto.
      right. right. exists c, func_, (Imread.resolver l), st'.
      split; [left; reflexivity | split; assumption].
    + intros Hrest.
      destruct (IH l1 Hrest)
        as [H | [H | (c' & func_ & st0 & st' & Hin & Hres & Hcall)]].
      * rewrite H.
        destruct (trial_image E depth data kw l l1 c (or_intror Htrial))
          as [H1 | [H1 | (func_ & st' & Hres & Hcall)]]; auto.
        right. right. exists c, func_, (Imread.resolver l), st'.
        split; [left; reflexivity | split; assumption].
      * auto.
      * right. right. exists c', func_, st0, st'.
        split; [right; exact Hin | split; assumption].
    + intros [[=] | [=]].
Qed.

(** X16.  [imread] makes nothing up: an image it returns is the value
    that the decode function of one of its candidates returned for the
    data read from the file object. *)
Theorem imread_result_provenance (E : environment) (depth : nat)
    (st st' : state) (f : fileobj) (codec : option hint)
    (memmap return_codec : bool) (kw : kwargs) (r : Imread.returned) :
  Imread.imread E depth st f codec memmap return_codec kw = (Return r, st') ->
  exists data c func_ st0 st1,
    Imread.acquire E f memmap = Return data
    /\ In c (Imread.candidates E f codec)
    /\ Imread.resolve E depth st0 c = (Return func_, st1)
    /\ call E func_ [data] kw
       = Return (match r with
                 | Imread.Image image_ => image_
                 | Imread.ImageAndCodec image_ _ => image_
                 end).
Proof.
  unfold Imread.imread.
  destruct (Imread.acquire E f memmap) as [data|e]; [|intros [=]].
  destruct (Imread.trials E depth data kw (Imread.start st)
                          (Imread.candidates E f codec))
    as [l|l|e st1] eqn:Htrials; [| |intros [=]].
  - intros Hfinish.
    destruct (trials_image E depth data kw _ _ l (or_introl Htrials))
      as [H | [H | (c & func_ & st0 & st1 & Hin & Hres & Hcall)]].
    + cbn [Imread.finish] in Hfinish. rewrite H in Hfinish.
      discriminate Hfinish.
    + cbn [Imread.finish] in Hfinish. rewrite H in Hfinish.
      discriminate Hfinish.
    + exists data, c, func_, st0, st1.
      split; [reflexivity|]. split; [exact Hin|]. split; [exact Hres|].
      rewrite Hcall. cbn [Imread.finish] in Hfinish.
      destruct (Imread.image l), return_codec; simplify_eq; reflexivity.
  - intros Hfinish.
    destruct (trials_image E depth data kw _ _ l (or_intror Htrials))
      as [H | [H | (c & func_ & st0 & st1 & Hin & Hres & Hcall)]].
    + cbn [Imread.finish] in Hfinish. rewrite H in Hfinish.
      discriminate Hfinish.
    + cbn [Imread.finish] in Hfinish. rewrite H in Hfinish.
      discriminate Hfinish.
    + exists data, c, func_, st0, st1.
      split; [reflexivity|]. split; [exact Hin|]. split; [exact Hres|].
      rewrite Hcall. cbn [Imread.finish] in Hfinish.
      destruct (Imread.image l), return_codec; simplify_eq; reflexivity.
Qed.

Lemma imread_result_provenance_witness :
  exists data c func_ st0 st1,
    Imread.acquire sample_backends (Path "scan.PNG") true = Return data
    /\ In c (Imread.candidates sample_backends (Path "scan.PNG") None)
    /\ Imread.resolve sample_backends 1 st0 c = (Return func_, st1)
    /\ call sample_backends func_ [data] []
       = Return (match Imread.Image (ndarray "uint8" [1] "PNG data") with
                 | Imread.Image image_ => image_
                 | Imread.ImageAndCodec image_ _ => image_
                 end).
Proof.
  apply (imread_result_provenance sample_backends 1 initial_state
           (snd (Imread.imread sample_backends 1 initial_state
                   (Path "scan.PNG") None true false []))
           (Path "scan.PNG") None true false []
           (Imread.Image (ndarray "uint8" [1] "PNG data"))).
  vm_compute. reflexivity.
Defined.

(** ** Normalising a codec name *)




(** ** The registered codecs *)

(** X18.  Registration gives every codec its full set of names: for
    each codec of [_CODECS], the six default attributes (encode, decode,
    check, version, the error class and the upper-case flag) are all in
    [_ATTRIBUTES], owned by the codec's module. *)
Theorem codec_attributes_registered (codec : string)
    (module : option string) :
  Dict.get Registry._CODECS codec = Some module ->
  Forall (fun a => Dict.get Registry._ATTRIBUTES a = Some module)
         (Registry.codec_attributes codec).
Proof.
  intros H%dict_get_In.
  assert (forallb
            (fun cm : string * option string =>
               bool_decide
                 (Forall (fun a => Dict.get Registry._ATTRIBUTES a
                                   = Some (snd cm))
                         (Registry.codec_attributes (fst cm))))
            Registry._CODECS = true) as Hall
    by (vm_compute; reflexivity).
  rewrite forallb_forall in Hall. specialize (Hall _ H).
  apply bool_decide_eq_true in Hall. exact Hall.
Qed.

Lemma codec_attributes_registered_witness :
  Forall (fun a => Dict.get Registry._ATTRIBUTES a = Some (Some "deflate"))
         (Registry.codec_attributes "gzip").
Proof.
  apply (codec_attributes_registered "gzip" (Some "deflate")).
  vm_compute. reflexivity.
Defined.

(** ** What [jpeg_decode] can return *)

Lemma lossless_decode_provenance (E : environment) (depth : nat)
    (st st' : state) (data image_ : value) (o : Builtin.decode_options) :
  Builtin.lossless_decode E depth st data o = (Return image_, st') ->
  exists name st0,
    In name ["jpegsof3_decode"; "ljpeg_decode"]
    /\ Builtin.invoke E depth st0 name [data] (Builtin.lossless_kwargs o)
       = (Return image_, st').
Proof.
  unfold Builtin.lossless_decode.
  destruct (Builtin.invoke E depth st "jpegsof3_decode" [data]
              (Builtin.lossless_kwargs o)) as [[image1|e] st1] eqn:Hsof3.
  - intros [= <- <-]. exists "jpegsof3_decode", st.
    split; [left; reflexivity | exact Hsof3].
  - intros Hljpeg. exists "ljpeg_decode", st1.
    split; [right; left; reflexivity | exact Hljpeg].
Qed.

(** X20.  [jpeg_decode] returns nothing of its own: an image it returns
    is what one of the four variant decoders (8-bit, 12-bit, SOF3,
    LJPEG) returned for the data, with the header and the end-of-image
    marker added when a header was given. *)
Theorem jpeg_decode_provenance (E : environment) (depth : nat)
    (st st' : state) (data image_ : value) (o : Builtin.decode_options) :
  Builtin.jpeg_decode E depth st data o = (Return image_, st') ->
  exists data' name kw st0,
    Builtin.with_header data o = Return data'
    /\ In name ["jpeg8_decode"; "jpeg12_decode"; "jpegsof3_decode";
                "ljpeg_decode"]
    /\ Builtin.invoke E depth st0 name [data'] kw = (Return image_, st').
Proof.
  unfold Builtin.jpeg_decode.
  destruct (Builtin.with_header data o) as [data'|e]; [|intros [=]].
  assert (forall st1,
             Builtin.lossless_decode E depth st1 data' o
             = (Return image_, st') ->
             exists data'' name kw st0,
               Return data' = Return data''
               /\ In name ["jpeg8_decode"; "jpeg12_decode";
                           "jpegsof3_decode"; "ljpeg_decode"]
               /\ Builtin.invoke E depth st0 name [data''] kw
                  = (Return image_, st')) as Hlossless.
  { intros st1 (name & st0 & Hin & Hinvoke)%lossless_decode_provenance.
    exists data', name, (Builtin.lossless_kwargs o), st0.
    split; [reflexivity|]. split; [|exact Hinvoke].
    destruct Hin as [<- | [<- | []]]; cbn; auto. }
  assert (forall name st1,
             In name ["jpeg8_decode"; "jpeg12_decode"] ->
             Builtin.invoke E depth st1 name [data'] (Builtin.baseline_kwargs o)
             = (Return image_, st') ->
             exists data'' name kw st0,
               Return data' = Return data''
               /\ In name ["jpeg8_decode"; "jpeg12_decode";
                           "jpegsof3_decode"; "ljpeg_decode"]
               /\ Builtin.invoke E depth st0 name [data''] kw
                  = (Return image_, st')) as Hbaseline.
  { intros name st1 Hin Hinvoke.
    exists data', name, (Builtin.baseline_kwargs o), st1.
    split; [reflexivity|]. split; [|exact Hinvoke].
    destruct Hin as [<- | [<- | []]]; cbn; auto. }
  destruct (Builtin.d_bitspersample o) as [bits|].
  - destruct (bits =? 8).
    { destruct (Builtin.invoke E depth st "jpeg8_decode" [data']
                  (Builtin.baseline_kwargs o)) as [[image1|e] st1] eqn:H8.
      - intros [= <- <-]. apply (Hbaseline "jpeg8_decode" st); cbn; auto.
      - destruct (Builtin.contains "SOF type" (str_exn e));
          [apply Hlossless | intros [=]]. }
    destruct (bits =? 12).
    { destruct (Builtin.invoke E depth st "jpeg12_decode" [data']
                  (Builtin.baseline_kwargs o)) as [[image1|e] st1] eqn:H12.
      - intros [= <- <-]. apply (Hbaseline "jpeg12_decode" st); cbn; auto.
      - destruct (Builtin.contains "SOF type" (str_exn e));
          [apply Hlossless | intros [=]]. }
    destruct (Builtin.lossless_decode E depth st data' o)
      as [[image1|e] st1] eqn:Hl.
    + intros [= <- <-]. apply (Hlossless st), Hl.
    + destruct (Builtin.contains "SOF type" (str_exn e));
        [apply Hlossless | intros [=]].
  - destruct (Builtin.invoke E depth st "jpeg8_decode" [data']
                (Builtin.baseline_kwargs o)) as [[image1|e] st1] eqn:H8.
    + intros [= <- <-]. apply (Hbaseline "jpeg8_decode" st); cbn; auto.
    + destruct (Builtin.contains "Unsupported JPEG data precision"
                                 (str_exn e)).
      * intros H12. apply (Hbaseline "jpeg12_decode" st1); cbn; auto.
      * destruct (Builtin.contains "SOF type" (str_exn e));
          [apply Hlossless | intros [=]].
Qed.

Lemma jpeg_decode_provenance_witness :
  exists data' name kw st0,
    Builtin.with_header (PyBytes "abc")
      {| Builtin.d_bitspersample := Some 16; Builtin.d_tables := PyNone;
         Builtin.d_header := None; Builtin.d_colorspace := PyNone;
         Builtin.d_outcolorspace := PyNone; Builtin.d_shape := PyNone;
         Builtin.d_numthreads := PyNone; Builtin.d_out := PyNone |}
    = Return data'
    /\ In name ["jpeg8_decode"; "jpeg12_decode"; "jpegsof3_decode";
                "ljpeg_decode"]
    /\ Builtin.invoke
         {| import_module := fun _ => Return (fun n => Some (Native "jpeg" n));
            import_shared := Return tt;
            native_call := fun _ a _ _ =>
              if String.eqb a "ljpeg_decode"
              then Return (ndarray "uint16" [1] "ab")
              else Raise (OtherError "JpegError" "not supported");
            native_name := fun _ a => Some a;
            global_call := global_call no_backends;
            splitext_ext := splitext_ext no_backends;
            open_read := open_read no_backends;
            value_repr := value_repr no_backends;
            add_str_error := add_str_error no_backends |}
         1 st0 name [data'] kw
       = (Return (ndarray "uint16" [1] "ab"),
          snd (Builtin.jpeg_decode
                 {| import_module :=
                      fun _ => Return (fun n => Some (Native "jpeg" n));
                    import_shared := Return tt;
                    native_call := fun _ a _ _ =>
                      if String.eqb a "ljpeg_decode"
                      then Return (ndarray "uint16" [1] "ab")
                      else Raise (OtherError "JpegError" "not supported");
                    native_name := fun _ a => Some a;
                    global_call := global_call no_backends;
                    splitext_ext := splitext_ext no_backends;
                    open_read := open_read no_backends;
                    value_repr := value_repr no_backends;
                    add_str_error := add_str_error no_backends |}
                 1 initial_state (PyBytes "abc")
                 {| Builtin.d_bitspersample := Some 16;
                    Builtin.d_tables := PyNone;
                    Builtin.d_header := None; Builtin.d_colorspace := PyNone;
                    Builtin.d_outcolorspace := PyNone;
                    Builtin.d_shape := PyNone;
                    Builtin.d_numthreads := PyNone;
                    Builtin.d_out := PyNone |})).
Proof.
  apply (jpeg_decode_provenance _ 1 initial_state _ (PyBytes "abc")).
  vm_compute. reflexivity.
Defined.
